(** * monitor-maker-template: the Pub/Sub worker of [main.py]

    A shallow embedding of [MonitorService.get_crypto_price],
    [MonitorService.get_weather], [send_to_discord] and [callback], and the
    properties of the message pipeline proved on it.

    Conventions.
    - Python values that reach the handler come out of [json.loads]; they are
      the inductive type [value] ([None], [bool], [int], [float], [str],
      [list], [dict]).  A Python [int] is a [Z]; a Python [float] is its
      IEEE-754 value, a [spec_float] of the Standard Library; a Python [str]
      is the [string] of its UTF-8 bytes, and so is a [bytes] object.
    - A Python computation that may raise is a [res]: [Ok v] or [Raise e].
      Only subclasses of [Exception] are modelled, which is what the
      [except Exception] clauses of the source catch.
    - The calls that leave the process ([requests.get], [requests.post],
      [os.environ.get]) are answered by an [env]; the calls the handler makes
      on the outside world ([requests.post] to the webhook, [message.ack])
      are recorded, in order, in a trace of [event]s.
    - Library functions of Python that the source calls ([json.loads],
      [bytes.decode], [str.upper], [float], the [,.2f] format, [repr]) are the
      fields of the class [PyLib]; every theorem holds for all of them.
    - [print] output is not modelled. *)

From Stdlib Require Import ZArith List String Ascii Bool Lia.
From Stdlib Require Import Floats.SpecFloat.
From Stdlib Require Import DecimalString.
Import ListNotations.
Set Warnings "-register-all".
Local Open Scope string_scope.
Local Open Scope Z_scope.

(** ** Exceptions and the error monad *)

Inductive exn : Type :=
| AttributeError
| NameError
| TypeError
| KeyError
| IndexError
| ValueError
| OverflowError
| UnicodeDecodeError
| JSONDecodeError
| Timeout
| ConnectionError
| HTTPError.

Inductive res (A : Type) : Type :=
| Ok (a : A)
| Raise (e : exn).
Arguments Ok {A} a.
Arguments Raise {A} e.

Definition bind {A B : Type} (m : res A) (k : A -> res B) : res B :=
  match m with
  | Ok a => k a
  | Raise e => Raise e
  end.

(** [try: m  except Exception as e: h e] *)
Definition try_except {A : Type} (m : res A) (h : exn -> res A) : res A :=
  match m with
  | Ok a => Ok a
  | Raise e => h e
  end.

Declare Scope py_scope.
Delimit Scope py_scope with py.
Notation "x <- m ;; k" := (bind m (fun x => k))
  (at level 61, m at next level, right associativity) : py_scope.
Local Open Scope py_scope.

(** ** Values *)

Inductive value : Type :=
| JNull
| JBool (b : bool)
| JInt (z : Z)
| JFloat (f : spec_float)
| JStr (s : string)
| JArr (l : list value)
| JObj (o : list (string * value)).

(** Lookup of a key in the entries of a [dict]. *)
Fixpoint assoc (k : string) (o : list (string * value)) : option value :=
  match o with
  | [] => None
  | (k', v) :: o' => if String.eqb k k' then Some v else assoc k o'
  end.

(** [d.get(k)] for a [dict] with entries [o]. *)
Definition dict_get (o : list (string * value)) (k : string) : value :=
  match assoc k o with
  | Some v => v
  | None => JNull
  end.

(** [data.get(k)]: only a [dict] has the method. *)
Definition py_get (data : value) (k : string) : res value :=
  match data with
  | JObj o => Ok (dict_get o k)
  | _ => Raise AttributeError
  end.

(** [v[k]] with a [str] key. *)
Definition getitem (v : value) (k : string) : res value :=
  match v with
  | JObj o => match assoc k o with Some x => Ok x | None => Raise KeyError end
  | _ => Raise TypeError
  end.

(** Number of bytes of the UTF-8 character that starts with byte [c]. *)
Definition utf8_width (c : ascii) : nat :=
  let n := N_of_ascii c in
  if (n <? 192)%N then 1%nat
  else if (n <? 224)%N then 2%nat
  else if (n <? 240)%N then 3%nat
  else 4%nat.

(** [s[0]] on a non-empty [str]: its first character. *)
Definition first_char (s : string) : string :=
  match s with
  | EmptyString => EmptyString
  | String c _ => substring 0 (utf8_width c) s
  end.

(** [v[0]]. The keys of a [dict] made by [json.loads] are all [str], so the
    key [0] is never found in one. *)
Definition getitem0 (v : value) : res value :=
  match v with
  | JArr [] => Raise IndexError
  | JArr (x :: _) => Ok x
  | JStr EmptyString => Raise IndexError
  | JStr s => Ok (JStr (first_char s))
  | JObj _ => Raise KeyError
  | _ => Raise TypeError
  end.

(** ** Numbers: truth value and comparison *)

Definition float_is_zero (f : spec_float) : bool :=
  match f with
  | S754_zero _ => true
  | _ => false
  end.

(** [bool(v)] *)
Definition truthy (v : value) : bool :=
  match v with
  | JNull => false
  | JBool b => b
  | JInt z => negb (z =? 0)
  | JFloat f => negb (float_is_zero f)
  | JStr s => negb (String.eqb s "")
  | JArr l => match l with [] => false | _ => true end
  | JObj o => match o with [] => false | _ => true end
  end.

(** Comparison of a [float] with an [int]: Python compares the exact values.
    [None] when the float is a NaN. *)
Definition compare_float_Z (f : spec_float) (z : Z) : option comparison :=
  match f with
  | S754_nan => None
  | S754_infinity s => Some (if s then Lt else Gt)
  | S754_zero _ => Some (0 ?= z)
  | S754_finite s m e =>
      let sm := if s then Z.neg m else Z.pos m in
      Some (if 0 <=? e then (sm * 2 ^ e ?= z) else (sm ?= z * 2 ^ (- e)))
  end.

(** Three-way comparison of a [float] with a value, as [float.__lt__] and
    its siblings do it: [bool] is an [int]; other types are not ordered
    with a float. *)
Definition py_compare (f : spec_float) (v : value) : res (option comparison) :=
  match v with
  | JInt z => Ok (compare_float_Z f z)
  | JBool b => Ok (compare_float_Z f (if b then 1 else 0))
  | JFloat g => Ok (SFcompare f g)
  | _ => Raise TypeError
  end.

Definition is_cmp (c : comparison) (o : option comparison) : bool :=
  match o, c with
  | Some Gt, Gt | Some Lt, Lt | Some Eq, Eq => true
  | _, _ => false
  end.

(** [f > v] *)
Definition py_gt (f : spec_float) (v : value) : res bool :=
  c <- py_compare f v ;; Ok (is_cmp Gt c).

(** [f < v] *)
Definition py_lt (f : spec_float) (v : value) : res bool :=
  c <- py_compare f v ;; Ok (is_cmp Lt c).

(** [f == v]: never raises; values of other types are unequal to a float. *)
Definition py_eq (f : spec_float) (v : value) : bool :=
  match py_compare f v with
  | Ok c => is_cmp Eq c
  | Raise _ => false
  end.

(** The values a [float] is ordered with: [int], [float] and [bool]. *)
Definition is_number (v : value) : bool :=
  match v with
  | JInt _ | JFloat _ | JBool _ => true
  | _ => false
  end.

(** [str(z)] for an [int]. *)
Definition str_int (z : Z) : string := NilZero.string_of_int (Z.to_int z).

(** [v == s] for a string literal [s]. *)
Definition str_eq (v : value) (s : string) : bool :=
  match v with
  | JStr s' => String.eqb s' s
  | _ => false
  end.

(** ** The outside world *)

(** A [requests.Response], by what the source reads of it. [json] is the
    result of the method [response.json()]. *)
Record response : Type := {
  status_code : Z;
  text : string;
  json : res value
}.

(** [response.raise_for_status()] *)
Definition raise_for_status (r : response) : res unit :=
  if (400 <=? status_code r) && (status_code r <? 600) then Raise HTTPError
  else Ok tt.

Record env : Type := {
  (** [requests.get(url, timeout=5)] *)
  requests_get : string -> res response;
  (** [requests.post(url, json=data)] *)
  requests_post : string -> value -> res response;
  (** [os.environ.get(name)] *)
  environ_get : string -> option string
}.

(** A Pub/Sub message: [message.data] is a [bytes]. *)
Record message : Type := { data : string }.

(** What the handler does to the outside world. *)
Inductive event : Type :=
| Post (url : string) (body : value)
| Ack (m : message).

(** Effectful code: exceptions over a trace of events. *)
Definition M (A : Type) : Type := list event -> res A * list event.

Definition ret {A : Type} (a : A) : M A := fun tr => (Ok a, tr).

Definition lift {A : Type} (m : res A) : M A := fun tr => (m, tr).

Definition bindM {A B : Type} (m : M A) (k : A -> M B) : M B :=
  fun tr =>
    match m tr with
    | (Ok a, tr') => k a tr'
    | (Raise e, tr') => (Raise e, tr')
    end.

Definition emit (ev : event) : M unit := fun tr => (Ok tt, (tr ++ [ev])%list).

(** [try: m  except Exception as e: h e], for effectful code. *)
Definition try_exceptM {A : Type} (m : M A) (h : exn -> M A) : M A :=
  fun tr =>
    match m tr with
    | (Ok a, tr') => (Ok a, tr')
    | (Raise e, tr') => h e tr'
    end.

Notation "x <~ m ;; k" := (bindM m (fun x => k))
  (at level 61, m at next level, right associativity) : py_scope.

Definition newline : string := String "010" EmptyString.

(** The Python library functions the source calls. *)
Class PyLib : Type := {
  (** [b.decode('utf-8')] *)
  bytes_decode : string -> res string;
  (** [json.loads(s)] *)
  json_loads : string -> res value;
  (** [s.upper()] *)
  str_upper : string -> string;
  (** [float(v)] *)
  py_float : value -> res spec_float;
  (** [format(f, ',.2f')] *)
  format_price : spec_float -> string;
  (** [str(v)] for a [float], a [list] or a [dict] *)
  py_repr : value -> string
}.

(** ** The source functions *)

Section Worker.

Context {L : PyLib}.

(** [str(v)], as an f-string field [{v}] renders it. *)
Definition py_str (v : value) : string :=
  match v with
  | JNull => "None"
  | JBool true => "True"
  | JBool false => "False"
  | JInt z => str_int z
  | JStr s => s
  | _ => py_repr v
  end.

(** [symbol.upper()]: only a [str] has the method. *)
Definition py_upper (v : value) : res string :=
  match v with
  | JStr s => Ok (str_upper s)
  | _ => Raise AttributeError
  end.

(** The URL of line 14, for the upper-cased symbol. *)
Definition crypto_url (up : string) : string :=
  let symbol_pair := up ++ "USDT" in
  "https://api.binance.com/api/v3/ticker/price?symbol=" ++ symbol_pair.

(** [MonitorService.get_crypto_price] (lines 9-25). [None] is the
    no-price result. *)
Definition get_crypto_price (w : env) (symbol : value)
  : res (option spec_float) :=
  try_except
    (up <- py_upper symbol ;;
     let url := crypto_url up in
     response <- requests_get w url ;;
     if status_code response =? 200 then
       data <- json response ;;
       p <- getitem data "price" ;;
       f <- py_float p ;;
       Ok (Some f)
     else Ok None)
    (fun _ => Ok None).

(** The dict [get_weather] returns. *)
Record weather : Type := {
  temp_C : value;
  desc : value;
  humidity : value
}.

(** The URL of line 30. *)
Definition weather_url (location : value) : string :=
  "https://wttr.in/" ++ py_str location ++ "?format=j1".

(** [MonitorService.get_weather] (lines 27-44). *)
Definition get_weather (w : env) (location : value) : res (option weather) :=
  try_except
    (let url := weather_url location in
     response <- requests_get w url ;;
     if status_code response =? 200 then
       data <- json response ;;
       cc <- getitem data "current_condition" ;;
       current <- getitem0 cc ;;
       t <- getitem current "temp_C" ;;
       wd <- getitem current "weatherDesc" ;;
       wd0 <- getitem0 wd ;;
       d <- getitem wd0 "value" ;;
       h <- getitem current "humidity" ;;
       Ok (Some {| temp_C := t; desc := d; humidity := h |})
     else Ok None)
    (fun _ => Ok None).

(** [send_to_discord] (lines 46-53): the POST is attempted, and whatever it
    answers or raises is swallowed. *)
Definition send_to_discord (w : env) (webhook_url content : string) : M unit :=
  let data := JObj [("content", JStr content)] in
  _ <~ emit (Post webhook_url data) ;;
  lift (try_except
          (response <- requests_post w webhook_url data ;;
           raise_for_status response)
          (fun _ => Ok tt)).

(** The texts of lines 75-101. *)
Definition crypto_base (symbol : value) (price : spec_float) : string :=
  "💰 **Monitor Crypto**: O preço de **" ++ py_str symbol ++ "** é de **$"
    ++ format_price price ++ "**.".

Definition above_line (threshold : value) : string :=
  newline ++ "📈 ALERTA: O preço está ACIMA de $" ++ py_str threshold ++ "!".

Definition below_line (threshold : value) : string :=
  newline ++ "📉 O preço está abaixo do alvo de $" ++ py_str threshold ++ ".".

Definition crypto_failure (symbol : value) : string :=
  "⚠️ Não foi possível obter o preço para " ++ py_str symbol ++ ".".

Definition weather_report (location : value) (wd : weather) : string :=
  "🌤️ **Monitor Tempo**: Em **" ++ py_str location ++ "** estão **"
    ++ py_str (temp_C wd) ++ "°C**." ++ newline
    ++ "Condição: " ++ py_str (desc wd) ++ " (Humidade: "
    ++ py_str (humidity wd) ++ "%)".

Definition weather_failure (location : value) : string :=
  "⚠️ Não foi possível obter o tempo para " ++ py_str location ++ ".".

(** The alert decision of [callback] (lines 61-102): the values of
    [response_text] and [should_alert] when line 105 is reached. *)
Definition alert_decision (w : env) (data : value) : res (string * bool) :=
  msg_type <- py_get data "type" ;;
  if str_eq msg_type "crypto" then
    symbol <- py_get data "symbol" ;;
    threshold <- py_get data "threshold" ;;
    alert_enabled <- py_get data "alert_enabled" ;;
    price <- get_crypto_price w symbol ;;
    match price with
    | Some p =>
        if negb (float_is_zero p) then
          let response_text := crypto_base symbol p in
          if truthy alert_enabled && truthy threshold then
            gt <- py_gt p threshold ;;
            if gt then Ok (response_text ++ above_line threshold, true)
            else
              lt <- py_lt p threshold ;;
              if lt then Ok (response_text ++ below_line threshold, false)
              else Ok (response_text, true)
          else Ok (response_text, true)
        else Ok (crypto_failure symbol, true)
    | None => Ok (crypto_failure symbol, true)
    end
  else if str_eq msg_type "weather" then
    location <- py_get data "location" ;;
    weather_data <- get_weather w location ;;
    match weather_data with
    | Some wd => Ok (weather_report location wd, true)
    | None => Ok (weather_failure location, true)
    end
  else Ok ("", false).

(** Lines 60-102 for a message: decoding, then the alert decision. *)
Definition message_decision (w : env) (m : message) : res (string * bool) :=
  s <- bytes_decode (data m) ;;
  data <- json_loads s ;;
  alert_decision w data.

(** The [try] block of [callback] (lines 59-111). *)
Definition callback_try (w : env) (m : message) : M unit :=
  d <~ lift (message_decision w m) ;;
  let '(response_text, should_alert) := d in
  let webhook_url := environ_get w "DISCORD_URL" in
  _ <~ match webhook_url with
       | Some u =>
           if negb (String.eqb u "") && should_alert
           then send_to_discord w u response_text
           else ret tt
       | None => ret tt
       end ;;
  emit (Ack m).

(** [callback] (lines 55-115): the [except Exception] clause only prints. *)
Definition callback (w : env) (m : message) : M unit :=
  try_exceptM (callback_try w m) (fun _ => ret tt).

(** The consumer loop hands the delivered messages to [callback] one at a
    time ([max_messages=1]). *)
Fixpoint consume (w : env) (ms : list message) : M unit :=
  match ms with
  | [] => ret tt
  | m :: ms' => _ <~ callback w m ;; consume w ms'
  end.

(** The text [alert_decision] gives when no threshold comparison is made:
    the price when there is one to show, the failure text otherwise. *)
Definition status_report (symbol : value) (price : option spec_float)
  : string :=
  match price with
  | Some p => if float_is_zero p then crypto_failure symbol
              else crypto_base symbol p
  | None => crypto_failure symbol
  end.

(** The webhook call line 106 makes for a decision to notify with [content]:
    none unless [DISCORD_URL] is set to a non-empty string. *)
Definition notification (w : env) (content : string) : list event :=
  match environ_get w "DISCORD_URL" with
  | Some u =>
      if negb (String.eqb u "")
      then [Post u (JObj [("content", JStr content)])]
      else []
  | None => []
  end.

(** The events one decision leads to: the webhook call, if any, then the
    acknowledgement. *)
Definition decision_events (w : env) (m : message) (d : string * bool)
  : list event :=
  ((if snd d then notification w (fst d) else []) ++ [Ack m])%list.

(** The events handling one message adds to the trace. *)
Definition message_events (w : env) (m : message) : list event :=
  match message_decision w m with
  | Ok d => decision_events w m d
  | Raise _ => []
  end.

(** A body the price fetcher can use: an object whose [price] entry
    [float] accepts. [None] for every other body. *)
Definition price_of (body : value) : option spec_float :=
  match body with
  | JObj o =>
      match assoc "price" o with
      | Some p => match py_float p with Ok f => Some f | Raise _ => None end
      | None => None
      end
  | _ => None
  end.

(** A body the weather fetcher can use: an object whose
    [current_condition] is a list that starts with an object holding
    [temp_C], [humidity] and a [weatherDesc] list that starts with an object
    holding [value]. [None] for every other body. *)
Definition forecast_of (body : value) : option weather :=
  match body with
  | JObj o =>
      match assoc "current_condition" o with
      | Some (JArr (JObj current :: _)) =>
          match assoc "temp_C" current, assoc "weatherDesc" current,
                assoc "humidity" current with
          | Some t, Some (JArr (JObj d0 :: _)), Some h =>
              match assoc "value" d0 with
              | Some d => Some {| temp_C := t; desc := d; humidity := h |}
              | None => None
              end
          | _, _, _ => None
          end
      | _ => None
      end
  | _ => None
  end.

(** What a fetcher is to make of the provider's answer, for the bodies
    [read] can use: the result read from the body of a status-200 answer,
    and no result otherwise. *)
Definition answer_of {A : Type} (read : value -> option A)
           (r : res response) : option A :=
  match r with
  | Ok resp =>
      if status_code resp =? 200 then
        match json resp with
        | Ok body => read body
        | Raise _ => None
        end
      else None
  | Raise _ => None
  end.

(** What a failed fetch means at the provider: the request raised (a
    timeout, a transport error), the status is not a success status, or the
    body is malformed: it does not parse, or [read] cannot use it. *)
Definition provider_failed {A : Type} (read : value -> option A)
           (r : res response) : bool :=
  match r with
  | Raise _ => true
  | Ok resp =>
      negb ((200 <=? status_code resp) && (status_code resp <? 300))
      || match json resp with
         | Raise _ => true
         | Ok body => match read body with None => true | Some _ => false end
         end
  end.

(** *** The module globals

    [main] binds the globals [monitor] and [redis_client] (lines 118-122 and
    132); [callback] reads [monitor] (lines 72 and 94) and, having no
    [global] statement, binds neither. *)

(** A [MonitorService] instance: the class has no attribute. *)
Inductive MonitorService : Type := MonitorService_new.

(** A [redis.Redis] client, by the arguments it was made with. *)
Inductive redis_handle : Type :=
| Redis (redis_host : string) (redis_port : Z) (password : option string).

Record globals : Type := {
  monitor : option MonitorService;
  redis_client : option redis_handle
}.

(** The name [monitor], looked up when the line runs. *)
Definition lookup_monitor (g : globals) : res MonitorService :=
  match monitor g with
  | Some svc => Ok svc
  | None => Raise NameError
  end.

(** Lines 61-102 again, run in a process whose globals are [g]: the
    methods are reached through the global [monitor]. *)
Definition alert_decision_in (g : globals) (w : env) (data : value)
  : res (string * bool) :=
  msg_type <- py_get data "type" ;;
  if str_eq msg_type "crypto" then
    symbol <- py_get data "symbol" ;;
    threshold <- py_get data "threshold" ;;
    alert_enabled <- py_get data "alert_enabled" ;;
    self <- lookup_monitor g ;;
    price <- get_crypto_price w symbol ;;
    match price with
    | Some p =>
        if negb (float_is_zero p) then
          let response_text := crypto_base symbol p in
          if truthy alert_enabled && truthy threshold then
            gt <- py_gt p threshold ;;
            if gt then Ok (response_text ++ above_line threshold, true)
            else
              lt <- py_lt p threshold ;;
              if lt then Ok (response_text ++ below_line threshold, false)
              else Ok (response_text, true)
          else Ok (response_text, true)
        else Ok (crypto_failure symbol, true)
    | None => Ok (crypto_failure symbol, true)
    end
  else if str_eq msg_type "weather" then
    location <- py_get data "location" ;;
    self <- lookup_monitor g ;;
    weather_data <- get_weather w location ;;
    match weather_data with
    | Some wd => Ok (weather_report location wd, true)
    | None => Ok (weather_failure location, true)
    end
  else Ok ("", false).

Definition message_decision_in (g : globals) (w : env) (m : message)
  : res (string * bool) :=
  s <- bytes_decode (data m) ;;
  data <- json_loads s ;;
  alert_decision_in g w data.

(** [callback] run in a process whose globals are [g]: the result, the
    trace and the globals it leaves. *)
Definition callback_in (g : globals) (w : env) (m : message)
           (tr : list event) : res unit * list event * globals :=
  (try_exceptM
     (d <~ lift (message_decision_in g w m) ;;
      let '(response_text, should_alert) := d in
      let webhook_url := environ_get w "DISCORD_URL" in
      _ <~ match webhook_url with
           | Some u =>
               if negb (String.eqb u "") && should_alert
               then send_to_discord w u response_text
               else ret tt
           | None => ret tt
           end ;;
      emit (Ack m))
     (fun _ => ret tt) tr,
   g).

End Worker.

(** ** Start-up: [main] *)

(** What [main] asks of the machine it starts on. *)
Record host : Type := {
  (** [os.environ.get(name)] *)
  os_environ_get : string -> option string;
  (** [int(s)] for a [str] *)
  py_int : string -> res Z;
  (** [redis.Redis(host=.., port=.., password=.., ...)] then [ping()] *)
  redis_connect : string -> Z -> option string -> res unit;
  (** [pubsub_v1.SubscriberClient()] *)
  subscriber_client : res unit;
  (** [subscriber.subscription_path(project_id, subscription_id)] *)
  subscription_path : string -> string -> string
}.

(** How [streaming_pull_future.result()] ends: it returns, a
    [KeyboardInterrupt] arrives, or it raises an [Exception]. *)
Inductive pull_end : Type :=
| Returned
| KeyboardInterrupt
| Failed (e : exn).

(** What [main] does to the outside world. *)
Inductive boot_event : Type :=
| RedisConnect (redis_host : string) (redis_port : Z)
               (password : option string)
| Subscribe (path : string) (max_messages : Z)
| Cancel.

(** [bool(v)] for the result of [os.environ.get]. *)
Definition env_truthy (v : option string) : bool :=
  match v with
  | Some s => negb (String.eqb s "")
  | None => false
  end.

(** [int(os.environ.get('REDIS_PORT', 6379))] (line 126). *)
Definition redis_port_setting (h : host) : res Z :=
  match os_environ_get h "REDIS_PORT" with
  | Some s => py_int h s
  | None => Ok 6379
  end.

(** Lines 129-142: the connection is attempted when [REDIS_HOST] is set,
    and what it answers or raises is only printed. *)
Definition redis_setup (h : host) (redis_port : Z) : list boot_event :=
  let redis_host := os_environ_get h "REDIS_HOST" in
  let redis_auth_string := os_environ_get h "REDIS_AUTH_STRING" in
  match redis_host with
  | Some rh =>
      if negb (String.eqb rh "") then
        match try_except (redis_connect h rh redis_port redis_auth_string)
                (fun _ => Ok tt) with
        | Ok _ => [RedisConnect rh redis_port redis_auth_string]
        | Raise _ => [RedisConnect rh redis_port redis_auth_string]
        end
      else []
  | None => []
  end.

(** [main] (lines 117-172), for the way the streaming pull ends. *)
Definition main (h : host) (pull : pull_end) : res unit * list boot_event :=
  match redis_port_setting h with
  | Raise e => (Raise e, [])
  | Ok redis_port =>
      let tr := redis_setup h redis_port in
      let project_id := os_environ_get h "GCP_PROJECT_ID" in
      let subscription_id := os_environ_get h "PUBSUB_SUBSCRIPTION_ID" in
      match project_id, subscription_id with
      | Some pid, Some sid =>
          if negb (env_truthy project_id) || negb (env_truthy subscription_id)
          then (Ok tt, tr)
          else
            match subscriber_client h with
            | Raise e => (Raise e, tr)
            | Ok _ =>
                let path := subscription_path h pid sid in
                let tr' := (tr ++ [Subscribe path 1])%list in
                match pull with
                | Returned => (Ok tt, tr')
                | KeyboardInterrupt => (Ok tt, (tr' ++ [Cancel])%list)
                | Failed e => (Raise e, tr')
                end
            end
      | _, _ => (Ok tt, tr)
      end
  end.

(** ** Sample runs

    A library instance, a world and messages to run the handler on. The
    tables give Python's answers on the texts and numbers used here; every
    other text is refused. *)

Module Sample.

Definition dq : string := String "034" EmptyString.

(** [s] between double quotes. *)
Definition q (s : string) : string := dq ++ s ++ dq.

Definition upper_ascii (c : ascii) : ascii :=
  let n := nat_of_ascii c in
  if ((97 <=? n) && (n <=? 122))%nat then ascii_of_nat (n - 32) else c.

Fixpoint upper (s : string) : string :=
  match s with
  | EmptyString => EmptyString
  | String c s' => String (upper_ascii c) (upper s')
  end.

(** The binary64 values 40000.0, 50000.0 and 52000.0. *)
Definition f40000 : spec_float := S754_finite false 5497558138880000 (-37).
Definition f50000 : spec_float := S754_finite false 6871947673600000 (-37).
Definition f52000 : spec_float := S754_finite false 7146825580544000 (-37).

(** [{"type":"crypto","symbol":"btc","threshold":50000,"alert_enabled":true}] *)
Definition crypto_payload : string :=
  "{" ++ q "type" ++ ":" ++ q "crypto" ++ "," ++ q "symbol" ++ ":" ++ q "btc"
    ++ "," ++ q "threshold" ++ ":50000," ++ q "alert_enabled" ++ ":true}".

Definition crypto_request : list (string * value) :=
  [("type", JStr "crypto"); ("symbol", JStr "btc");
   ("threshold", JInt 50000); ("alert_enabled", JBool true)].

(** [{"type":"crypto","symbol":"btc"}] *)
Definition plain_payload : string :=
  "{" ++ q "type" ++ ":" ++ q "crypto" ++ "," ++ q "symbol" ++ ":" ++ q "btc"
    ++ "}".

Definition plain_request : list (string * value) :=
  [("type", JStr "crypto"); ("symbol", JStr "btc")].

(** [{"type":"crypto","symbol":"btc","threshold":0,"alert_enabled":true}] *)
Definition zero_threshold_payload : string :=
  "{" ++ q "type" ++ ":" ++ q "crypto" ++ "," ++ q "symbol" ++ ":" ++ q "btc"
    ++ "," ++ q "threshold" ++ ":0," ++ q "alert_enabled" ++ ":true}".

Definition zero_threshold_request : list (string * value) :=
  [("type", JStr "crypto"); ("symbol", JStr "btc");
   ("threshold", JInt 0); ("alert_enabled", JBool true)].

(** [{"type":"crypto","threshold":50000,"alert_enabled":true}] *)
Definition no_symbol_payload : string :=
  "{" ++ q "type" ++ ":" ++ q "crypto" ++ "," ++ q "threshold" ++ ":50000,"
    ++ q "alert_enabled" ++ ":true}".

Definition no_symbol_request : list (string * value) :=
  [("type", JStr "crypto"); ("threshold", JInt 50000);
   ("alert_enabled", JBool true)].

(** [{"type":"weather","location":"lisbon"}] *)
Definition weather_payload : string :=
  "{" ++ q "type" ++ ":" ++ q "weather" ++ "," ++ q "location" ++ ":"
    ++ q "lisbon" ++ "}".

Definition weather_request : list (string * value) :=
  [("type", JStr "weather"); ("location", JStr "lisbon")].

(** [{"type":"stocks"}] *)
Definition unknown_payload : string :=
  "{" ++ q "type" ++ ":" ++ q "stocks" ++ "}".

Definition unknown_request : list (string * value) :=
  [("type", JStr "stocks")].

(** [{"type":"crypto","symbol":"btc","threshold":"50000","alert_enabled":true}] *)
Definition text_threshold_payload : string :=
  "{" ++ q "type" ++ ":" ++ q "crypto" ++ "," ++ q "symbol" ++ ":" ++ q "btc"
    ++ "," ++ q "threshold" ++ ":" ++ q "50000" ++ "," ++ q "alert_enabled"
    ++ ":true}".

Definition text_threshold_request : list (string * value) :=
  [("type", JStr "crypto"); ("symbol", JStr "btc");
   ("threshold", JStr "50000"); ("alert_enabled", JBool true)].

(** Not JSON. *)
Definition garbage_payload : string := "not json".

Definition loads_table : list (string * value) :=
  [(crypto_payload, JObj crypto_request);
   (plain_payload, JObj plain_request);
   (zero_threshold_payload, JObj zero_threshold_request);
   (no_symbol_payload, JObj no_symbol_request);
   (weather_payload, JObj weather_request);
   (unknown_payload, JObj unknown_request);
   (text_threshold_payload, JObj text_threshold_request);
   ("[1, 2]", JArr [JInt 1; JInt 2])].

Definition lib : PyLib := {|
  bytes_decode b := Ok b;
  json_loads s :=
    match assoc s loads_table with
    | Some v => Ok v
    | None => Raise JSONDecodeError
    end;
  str_upper := upper;
  py_float v :=
    match v with
    | JFloat f => Ok f
    | JStr s =>
        if String.eqb s "40000.00000000" then Ok f40000
        else if String.eqb s "50000.00000000" then Ok f50000
        else if String.eqb s "52000.00000000" then Ok f52000
        else if String.eqb s "0.00000000" then Ok (S754_zero false)
        else Raise ValueError
    | _ => Raise TypeError
    end;
  format_price f :=
    match f with
    | S754_finite false 5497558138880000 (-37) => "40,000.00"
    | S754_finite false 6871947673600000 (-37) => "50,000.00"
    | S754_finite false 7146825580544000 (-37) => "52,000.00"
    | S754_zero false => "0.00"
    | _ => "?"
    end;
  py_repr _ := "?"
|}.

(** The body Binance answers for a quoted price: [{"symbol":"BTCUSDT","price":p}] *)
Definition ticker (p : string) : response :=
  {| status_code := 200;
     text := "{" ++ q "symbol" ++ ":" ++ q "BTCUSDT" ++ "," ++ q "price" ++ ":"
               ++ q p ++ "}";
     json := Ok (JObj [("symbol", JStr "BTCUSDT"); ("price", JStr p)]) |}.

Definition webhook : string := "https://discord.example/api/webhooks/1".

(** A world where Binance quotes [p] for BTCUSDT, every other request times
    out, and the webhook is configured when [hook] is set. *)
Definition world (p : string) (hook : bool) : env :=
  {| requests_get url :=
       if String.eqb url
            "https://api.binance.com/api/v3/ticker/price?symbol=BTCUSDT"
       then Ok (ticker p) else Raise Timeout;
     requests_post _ _ :=
       Ok {| status_code := 204; text := ""; json := Raise JSONDecodeError |};
     environ_get name :=
       if String.eqb name "DISCORD_URL" && hook then Some webhook else None |}.

(** The body wttr.in answers:
    [{"current_condition":[{"temp_C":"18","weatherDesc":[{"value":"Sunny"}],"humidity":"40"}]}] *)
Definition forecast : response :=
  {| status_code := 200;
     text := "{" ++ q "current_condition" ++ ":[{" ++ q "temp_C" ++ ":"
               ++ q "18" ++ "," ++ q "weatherDesc" ++ ":[{" ++ q "value" ++ ":"
               ++ q "Sunny" ++ "}]," ++ q "humidity" ++ ":" ++ q "40" ++ "}]}";
     json :=
       Ok (JObj [("current_condition",
                  JArr [JObj [("temp_C", JStr "18");
                              ("weatherDesc",
                               JArr [JObj [("value", JStr "Sunny")]]);
                              ("humidity", JStr "40")]])]) |}.

(** A world where wttr.in answers [forecast] for lisbon, every other request
    is refused with status 404, and the webhook is configured. *)
Definition weather_world : env :=
  {| requests_get url :=
       if String.eqb url "https://wttr.in/lisbon?format=j1"
       then Ok forecast
       else Ok {| status_code := 404; text := "Not Found";
                  json := Raise JSONDecodeError |};
     requests_post _ _ := Raise ConnectionError;
     environ_get name :=
       if String.eqb name "DISCORD_URL" then Some webhook else None |}.

(** A world where every request is answered [r], posting fails, and the
    webhook is configured. *)
Definition answering (r : res response) : env :=
  {| requests_get _ := r;
     requests_post _ _ := Raise ConnectionError;
     environ_get name :=
       if String.eqb name "DISCORD_URL" then Some webhook else None |}.

(** A quote whose price is not a number: [{"price": NaN}], which
    [json.loads] reads as the float [nan]. *)
Definition nan_ticker : response :=
  {| status_code := 200;
     text := "{" ++ q "price" ++ ": NaN}";
     json := Ok (JObj [("price", JFloat S754_nan)]) |}.

(** A status-200 answer whose body is the empty object [{}]. *)
Definition empty_answer : response :=
  {| status_code := 200; text := "{}"; json := Ok (JObj []) |}.

(** [world p hook] with a webhook that cannot be reached. *)
Definition unreachable (p : string) (hook : bool) : env :=
  {| requests_get := requests_get (world p hook);
     requests_post _ _ := Raise ConnectionError;
     environ_get := environ_get (world p hook) |}.

(** The globals after [main] with Redis not configured, and with Redis
    configured. *)
Definition bare : globals :=
  {| monitor := Some MonitorService_new; redis_client := None |}.

Definition cached : globals :=
  {| monitor := Some MonitorService_new;
     redis_client := Some (Redis "10.0.0.3" 6379 None) |}.

(** [forecast] with status 203. *)
Definition forecast_203 : response :=
  {| status_code := 203; text := text forecast; json := json forecast |}.

(** A machine with [REDIS_PORT] set to [port], [REDIS_HOST] set when
    [redis] is, [GCP_PROJECT_ID] set to [project], a subscription id, no
    Redis server to answer, and credentials for Pub/Sub. *)
Definition machine (port : option string) (redis : bool)
           (project : option string) : host :=
  {| os_environ_get name :=
       if String.eqb name "REDIS_PORT" then port
       else if String.eqb name "REDIS_HOST"
            then (if redis then Some "10.0.0.3" else None)
       else if String.eqb name "GCP_PROJECT_ID" then project
       else if String.eqb name "PUBSUB_SUBSCRIPTION_ID"
            then Some "monitor-sub"
       else None;
     py_int s := if String.eqb s "6380" then Ok 6380 else Raise ValueError;
     redis_connect _ _ _ := Raise ConnectionError;
     subscriber_client := Ok tt;
     subscription_path project_id subscription_id :=
       "projects/" ++ project_id ++ "/subscriptions/" ++ subscription_id |}.

End Sample.

Example sample_floats_are_binary64 :
  map (valid_binary 53 1024) [Sample.f40000; Sample.f50000; Sample.f52000]
  = [true; true; true].
Proof. reflexivity. Qed.

Example sample_above :
  alert_decision (L := Sample.lib) (Sample.world "52000.00000000" true)
    (JObj Sample.crypto_request)
  = Ok ("💰 **Monitor Crypto**: O preço de **btc** é de **$52,000.00**."
          ++ newline ++ "📈 ALERTA: O preço está ACIMA de $50000!", true).
Proof. reflexivity. Qed.

Example sample_below :
  alert_decision (L := Sample.lib) (Sample.world "40000.00000000" true)
    (JObj Sample.crypto_request)
  = Ok ("💰 **Monitor Crypto**: O preço de **btc** é de **$40,000.00**."
          ++ newline ++ "📉 O preço está abaixo do alvo de $50000.", false).
Proof. reflexivity. Qed.

Example sample_equal :
  alert_decision (L := Sample.lib) (Sample.world "50000.00000000" true)
    (JObj Sample.crypto_request)
  = Ok ("💰 **Monitor Crypto**: O preço de **btc** é de **$50,000.00**.", true).
Proof. reflexivity. Qed.

Example sample_callback_above :
  callback (L := Sample.lib) (Sample.world "52000.00000000" true)
    {| data := Sample.crypto_payload |} []
  = (Ok tt,
     [Post Sample.webhook
        (JObj [("content",
                JStr ("💰 **Monitor Crypto**: O preço de **btc** é de **$52,000.00**."
                        ++ newline
                        ++ "📈 ALERTA: O preço está ACIMA de $50000!"))]);
      Ack {| data := Sample.crypto_payload |}]).
Proof. reflexivity. Qed.

Example sample_weather :
  callback (L := Sample.lib) Sample.weather_world
    {| data := Sample.weather_payload |} []
  = (Ok tt,
     [Post Sample.webhook
        (JObj [("content",
                JStr ("🌤️ **Monitor Tempo**: Em **lisbon** estão **18°C**."
                        ++ newline
                        ++ "Condição: Sunny (Humidade: 40%)"))]);
      Ack {| data := Sample.weather_payload |}]).
Proof. reflexivity. Qed.

(** A payload that is JSON but not an object: [data.get] raises. *)
Example sample_not_an_object :
  callback_try (L := Sample.lib) Sample.weather_world {| data := "[1, 2]" |} []
  = (Raise AttributeError, [])
  /\ callback (L := Sample.lib) Sample.weather_world {| data := "[1, 2]" |} []
     = (Ok tt, []).
Proof. split; reflexivity. Qed.

(** A threshold that is a [str]: the comparison of line 79 raises. *)
Example sample_text_threshold :
  callback_try (L := Sample.lib) (Sample.world "52000.00000000" true)
    {| data := Sample.text_threshold_payload |} []
  = (Raise TypeError, [])
  /\ callback (L := Sample.lib) (Sample.world "52000.00000000" true)
       {| data := Sample.text_threshold_payload |} []
     = (Ok tt, []).
Proof. split; reflexivity. Qed.

(** Without [DISCORD_URL] nothing is posted, and the message is
    acknowledged. *)
Example sample_no_webhook :
  callback (L := Sample.lib) (Sample.world "52000.00000000" false)
    {| data := Sample.crypto_payload |} []
  = (Ok tt, [Ack {| data := Sample.crypto_payload |}]).
Proof. reflexivity. Qed.

(** ** Comparison facts *)

Lemma py_eq_compare (p : spec_float) (v : value) :
  py_eq p v = true -> py_compare p v = Ok (Some Eq).
Proof.
  unfold py_eq. destruct (py_compare p v) as [[[ | | ]| ]| ]; simpl;
    congruence.
Qed.

Lemma py_eq_not_gt (p : spec_float) (v : value) :
  py_eq p v = true -> py_gt p v = Ok false.
Proof. intros H. unfold py_gt. now rewrite (py_eq_compare _ _ H). Qed.

Lemma py_eq_not_lt (p : spec_float) (v : value) :
  py_eq p v = true -> py_lt p v = Ok false.
Proof. intros H. unfold py_lt. now rewrite (py_eq_compare _ _ H). Qed.

Lemma py_lt_not_gt (p : spec_float) (v : value) :
  py_lt p v = Ok true -> py_gt p v = Ok false.
Proof.
  unfold py_lt, py_gt. destruct (py_compare p v) as [[[ | | ]| ]| ]; simpl;
    congruence.
Qed.

Lemma SFcompare_zero_eq (s : bool) (g : spec_float) :
  SFcompare (S754_zero s) g = Some Eq -> float_is_zero g = true.
Proof. destruct g as [ | [ | ] | | [ | ] ]; simpl; congruence. Qed.

(** A zero float equals no value that counts as true. *)
Lemma py_eq_zero_falsy (p : spec_float) (v : value) :
  float_is_zero p = true -> py_eq p v = true -> truthy v = false.
Proof.
  intros Hz He. apply py_eq_compare in He.
  destruct p; try discriminate Hz.
  destruct v as [ | [ | ] | z | g | | | ]; simpl in *;
    try reflexivity; try discriminate He.
  - destruct z; [reflexivity | discriminate He | discriminate He].
  - injection He as He. now rewrite (SFcompare_zero_eq s g He).
Qed.

(** ** The fetchers never raise *)

Section Fetchers.

Context {L : PyLib}.

Lemma get_crypto_price_total (w : env) (symbol : value) :
  exists r, get_crypto_price w symbol = Ok r.
Proof.
  unfold get_crypto_price.
  match goal with |- exists r, try_except ?m _ = _ => destruct m; simpl end;
    eauto.
Qed.

Lemma get_weather_total (w : env) (location : value) :
  exists r, get_weather w location = Ok r.
Proof.
  unfold get_weather.
  match goal with |- exists r, try_except ?m _ = _ => destruct m; simpl end;
    eauto.
Qed.

Lemma provider_failed_answer {A : Type} (read : value -> option A)
      (r : res response) :
  provider_failed read r = true -> answer_of read r = None.
Proof.
  unfold provider_failed, answer_of. destruct r as [resp| ]; [ | reflexivity].
  destruct (status_code resp =? 200) eqn:Hs; [ | reflexivity].
  apply Z.eqb_eq in Hs. rewrite Hs. cbn [Z.leb Z.ltb Z.compare Pos.compare
    Pos.compare_cont andb negb orb].
  destruct (json resp) as [body| ]; [ | reflexivity].
  now destruct (read body).
Qed.

(** The price fetcher on a [str] symbol, by the provider's answer. *)
Lemma get_crypto_price_answer (w : env) (s : string) :
  get_crypto_price w (JStr s)
  = Ok (answer_of price_of (requests_get w (crypto_url (str_upper s)))).
Proof.
  unfold get_crypto_price, answer_of. simpl.
  destruct (requests_get w (crypto_url (str_upper s))) as [resp| ]; simpl;
    [ | reflexivity].
  destruct (status_code resp =? 200); simpl; [ | reflexivity].
  destruct (json resp) as [body| ]; simpl; [ | reflexivity].
  destruct body as [ | | | | | |o]; simpl; try reflexivity.
  destruct (assoc "price" o) as [p| ]; simpl; [ | reflexivity].
  now destruct (py_float p).
Qed.

(** The weather fetcher, by the provider's answer. *)
Lemma get_weather_answer (w : env) (location : value) :
  get_weather w location
  = Ok (answer_of forecast_of (requests_get w (weather_url location))).
Proof.
  unfold get_weather, answer_of. cbn zeta.
  destruct (requests_get w (weather_url location)) as [resp| ]; simpl;
    [ | reflexivity].
  destruct (status_code resp =? 200); simpl; [ | reflexivity].
  destruct (json resp) as [body| ]; simpl; [ | reflexivity].
  destruct body as [ | | | | | |o]; simpl; try reflexivity.
  destruct (assoc "current_condition" o) as [cc| ]; simpl; [ | reflexivity].
  destruct cc as [ | | | |s|l|c]; simpl; try reflexivity.
  - now destruct s.
  - destruct l as [ |current l]; simpl; [reflexivity | ].
    destruct current as [ | | | | | |c]; simpl; try reflexivity.
    destruct (assoc "temp_C" c) as [t| ]; simpl; [ | reflexivity].
    destruct (assoc "weatherDesc" c) as [wdesc| ]; simpl; [ | reflexivity].
    destruct wdesc as [ | | | |s|l'|c']; simpl; try reflexivity.
    + now destruct s.
    + destruct l' as [ |wd0 l']; simpl; [reflexivity | ].
      destruct wd0 as [ | | | | | |d0]; simpl; try reflexivity.
      destruct (assoc "value" d0) as [d| ]; simpl.
      * now destruct (assoc "humidity" c).
      * now destruct (assoc "humidity" c).
Qed.

Lemma get_crypto_price_failed (w : env) (s : string) :
  provider_failed price_of (requests_get w (crypto_url (str_upper s))) = true ->
  get_crypto_price w (JStr s) = Ok None.
Proof.
  intros H. now rewrite get_crypto_price_answer, (provider_failed_answer _ _ H).
Qed.

Lemma get_weather_failed (w : env) (location : value) :
  provider_failed forecast_of (requests_get w (weather_url location)) = true ->
  get_weather w location = Ok None.
Proof.
  intros H. now rewrite get_weather_answer, (provider_failed_answer _ _ H).
Qed.

(** A symbol that is not a [str] has no [upper]: no request is made. *)
Lemma get_crypto_price_not_str (w : env) (symbol : value) :
  (forall s, symbol <> JStr s) -> get_crypto_price w symbol = Ok None.
Proof.
  intros H. unfold get_crypto_price.
  destruct symbol; try reflexivity. now destruct (H s).
Qed.

(** X2. [get_crypto_price] returns a price exactly when the symbol is a
    [str], the request is answered with status 200, the body parses to an
    object with a [price], and [float] accepts it; the price is that
    float. *)
Lemma get_crypto_price_some (w : env) (symbol : value) (f : spec_float) :
  get_crypto_price w symbol = Ok (Some f) <->
  exists s resp body p,
    symbol = JStr s
    /\ requests_get w (crypto_url (str_upper s)) = Ok resp
    /\ status_code resp = 200
    /\ json resp = Ok body
    /\ getitem body "price" = Ok p
    /\ py_float p = Ok f.
Proof.
  split.
  - unfold get_crypto_price.
    destruct symbol as [ | | | |s| | ]; simpl; try discriminate.
    destruct (requests_get w (crypto_url (str_upper s))) as [resp| ] eqn:Hr;
      simpl; try discriminate.
    destruct (status_code resp =? 200) eqn:Hs; simpl; try discriminate.
    destruct (json resp) as [body| ] eqn:Hj; simpl; try discriminate.
    destruct (getitem body "price") as [p| ] eqn:Hp; simpl; try discriminate.
    destruct (py_float p) as [f'| ] eqn:Hf; simpl; try discriminate.
    intros E. injection E as E. subst f'.
    exists s, resp, body, p. apply Z.eqb_eq in Hs. auto 10.
  - intros (s & resp & body & p & -> & Hr & Hs & Hj & Hp & Hf).
    unfold get_crypto_price. simpl. rewrite Hr. simpl. rewrite Hs. simpl.
    rewrite Hj. simpl. rewrite Hp. simpl. now rewrite Hf.
Qed.

End Fetchers.

(** ** The handler *)

Section Handler.

Context {L : PyLib}.

Lemma send_to_discord_run (w : env) (u content : string) (tr : list event) :
  send_to_discord w u content tr
  = (Ok tt, (tr ++ [Post u (JObj [("content", JStr content)])])%list).
Proof.
  unfold send_to_discord, bindM, emit, lift. simpl.
  destruct (requests_post w u _) as [resp| ]; simpl; [ | reflexivity].
  now destruct (raise_for_status resp) as [[]| ].
Qed.

(** The [try] block raises exactly when decoding or the decision does, and
    then nothing has been sent or acknowledged. *)
Lemma callback_try_run (w : env) (m : message) (tr : list event) :
  callback_try w m tr
  = match message_decision w m with
    | Ok d => (Ok tt, (tr ++ decision_events w m d)%list)
    | Raise e => (Raise e, tr)
    end.
Proof.
  unfold callback_try, bindM, lift.
  destruct (message_decision w m) as [[response_text should_alert]| ];
    [ | reflexivity].
  unfold decision_events, notification, emit, ret. cbn [fst snd].
  destruct (environ_get w "DISCORD_URL") as [u| ].
  - destruct (String.eqb u ""), should_alert; cbn [negb andb];
      rewrite ?send_to_discord_run, <- ?app_assoc; reflexivity.
  - now destruct should_alert.
Qed.

Lemma callback_run (w : env) (m : message) (tr : list event) :
  callback w m tr = (Ok tt, (tr ++ message_events w m)%list).
Proof.
  unfold callback, try_exceptM, message_events. rewrite callback_try_run.
  destruct (message_decision w m) as [d| ]; [reflexivity | ].
  unfold ret. now rewrite app_nil_r.
Qed.

Lemma message_decision_dict (w : env) (m : message) (s : string)
      (o : list (string * value)) :
  bytes_decode (data m) = Ok s ->
  json_loads s = Ok (JObj o) ->
  message_decision w m = alert_decision w (JObj o).
Proof. intros Hb Hj. unfold message_decision. now rewrite Hb; simpl; rewrite Hj. Qed.

(** The decision for a crypto request, by the price fetched. *)
Lemma alert_decision_crypto (w : env) (o : list (string * value))
      (price : option spec_float) :
  dict_get o "type" = JStr "crypto" ->
  get_crypto_price w (dict_get o "symbol") = Ok price ->
  alert_decision w (JObj o)
  = match price with
    | Some p =>
        if negb (float_is_zero p) then
          if truthy (dict_get o "alert_enabled")
             && truthy (dict_get o "threshold")
          then
            gt <- py_gt p (dict_get o "threshold") ;;
            if gt
            then Ok (crypto_base (dict_get o "symbol") p
                       ++ above_line (dict_get o "threshold"), true)
            else
              lt <- py_lt p (dict_get o "threshold") ;;
              if lt
              then Ok (crypto_base (dict_get o "symbol") p
                         ++ below_line (dict_get o "threshold"), false)
              else Ok (crypto_base (dict_get o "symbol") p, true)
          else Ok (crypto_base (dict_get o "symbol") p, true)
        else Ok (crypto_failure (dict_get o "symbol"), true)
    | None => Ok (crypto_failure (dict_get o "symbol"), true)
    end.
Proof.
  intros Ht Hp. unfold alert_decision. simpl. rewrite Ht. simpl.
  rewrite Hp. reflexivity.
Qed.

(** On an object the decision raises only at the comparison of the price
    with a threshold that is not a number. *)
Lemma alert_decision_raise (w : env) (o : list (string * value)) (e : exn) :
  alert_decision w (JObj o) = Raise e ->
  e = TypeError
  /\ dict_get o "type" = JStr "crypto"
  /\ truthy (dict_get o "alert_enabled") = true
  /\ truthy (dict_get o "threshold") = true
  /\ exists p,
      get_crypto_price w (dict_get o "symbol") = Ok (Some p)
      /\ float_is_zero p = false
      /\ py_compare p (dict_get o "threshold") = Raise TypeError.
Proof.
  unfold alert_decision. simpl.
  destruct (str_eq (dict_get o "type") "crypto") eqn:Ht.
  - assert (Ht' : dict_get o "type" = JStr "crypto").
    { destruct (dict_get o "type"); try discriminate Ht.
      simpl in Ht. apply String.eqb_eq in Ht. now subst. }
    destruct (get_crypto_price_total w (dict_get o "symbol")) as [r Hr].
    rewrite Hr. simpl. destruct r as [p| ]; [ | discriminate].
    destruct (float_is_zero p) eqn:Hz; simpl; [discriminate | ].
    destruct (truthy (dict_get o "alert_enabled")) eqn:Ha; simpl;
      [ | discriminate].
    destruct (truthy (dict_get o "threshold")) eqn:Hthr; simpl;
      [ | discriminate].
    unfold py_gt, py_lt.
    destruct (py_compare p (dict_get o "threshold")) as [c|e'] eqn:Hc; simpl.
    + destruct (is_cmp Gt c); [discriminate | ].
      destruct (is_cmp Lt c); discriminate.
    + intros E. injection E as E. subst e'.
      assert (e = TypeError).
      { unfold py_compare in Hc.
        destruct (dict_get o "threshold"); congruence. }
      subst e. repeat split; eauto.
  - destruct (str_eq (dict_get o "type") "weather"); [ | discriminate].
    simpl.
    destruct (get_weather_total w (dict_get o "location")) as [r Hr].
    rewrite Hr. simpl. destruct r; discriminate.
Qed.

Lemma alert_decision_weather (w : env) (o : list (string * value))
      (wd : option weather) :
  dict_get o "type" = JStr "weather" ->
  get_weather w (dict_get o "location") = Ok wd ->
  alert_decision w (JObj o)
  = match wd with
    | Some d => Ok (weather_report (dict_get o "location") d, true)
    | None => Ok (weather_failure (dict_get o "location"), true)
    end.
Proof.
  intros Ht Hw. unfold alert_decision. simpl. rewrite Ht. simpl.
  rewrite Hw. reflexivity.
Qed.

(** With [monitor] bound, the handler run in a process is the handler. *)
Lemma alert_decision_in_bound (g : globals) (svc : MonitorService) (w : env)
      (v : value) :
  monitor g = Some svc -> alert_decision_in g w v = alert_decision w v.
Proof.
  intros Hg. unfold alert_decision_in, alert_decision, lookup_monitor.
  rewrite Hg. destruct (py_get v "type") as [msg_type| ]; [ | reflexivity].
  cbn [bind].
  destruct (str_eq msg_type "crypto").
  - destruct (py_get v "symbol"); [ | reflexivity]. cbn [bind].
    destruct (py_get v "threshold"); [ | reflexivity]. cbn [bind].
    destruct (py_get v "alert_enabled"); reflexivity.
  - destruct (str_eq msg_type "weather"); [ | reflexivity].
    destruct (py_get v "location"); reflexivity.
Qed.

Lemma message_decision_in_bound (g : globals) (svc : MonitorService)
      (w : env) (m : message) :
  monitor g = Some svc -> message_decision_in g w m = message_decision w m.
Proof.
  intros Hg. unfold message_decision_in, message_decision.
  destruct (bytes_decode (data m)) as [s| ]; [ | reflexivity]. cbn [bind].
  destruct (json_loads s) as [v| ]; [ | reflexivity]. cbn [bind].
  exact (alert_decision_in_bound g svc w v Hg).
Qed.

Lemma callback_in_bound (g : globals) (svc : MonitorService) (w : env)
      (m : message) (tr : list event) :
  monitor g = Some svc -> callback_in g w m tr = (callback w m tr, g).
Proof.
  intros Hg. unfold callback_in, callback, callback_try.
  now rewrite (message_decision_in_bound g svc w m Hg).
Qed.

(** The decision reads the world through the answers to its requests. *)
Lemma alert_decision_same_answers (w w' : env) (v : value) :
  (forall url, requests_get w url = requests_get w' url) ->
  alert_decision w v = alert_decision w' v.
Proof.
  intros H. unfold alert_decision, get_crypto_price, get_weather.
  destruct (py_get v "type") as [msg_type| ]; [ | reflexivity]. cbn [bind].
  destruct (str_eq msg_type "crypto").
  - destruct (py_get v "symbol") as [symbol| ]; [ | reflexivity]. cbn [bind].
    destruct (py_get v "threshold"); [ | reflexivity]. cbn [bind].
    destruct (py_get v "alert_enabled"); [ | reflexivity]. cbn [bind].
    destruct (py_upper symbol) as [up| ]; [ | reflexivity]. cbn [bind].
    now rewrite H.
  - destruct (str_eq msg_type "weather"); [ | reflexivity].
    destruct (py_get v "location"); [ | reflexivity]. cbn [bind]. cbn zeta.
    now rewrite H.
Qed.

Lemma message_events_same_world (w w' : env) (m : message) :
  (forall url, requests_get w url = requests_get w' url) ->
  environ_get w "DISCORD_URL" = environ_get w' "DISCORD_URL" ->
  message_decision w m = message_decision w' m
  /\ message_events w m = message_events w' m.
Proof.
  intros Hget Henv.
  assert (Hd : message_decision w m = message_decision w' m).
  { unfold message_decision.
    destruct (bytes_decode (data m)) as [s| ]; [ | reflexivity]. cbn [bind].
    destruct (json_loads s) as [v| ]; [ | reflexivity]. cbn [bind].
    now apply alert_decision_same_answers. }
  split; [exact Hd | ].
  unfold message_events, decision_events, notification.
  now rewrite Hd, Henv.
Qed.

End Handler.

(** ** The claims *)

Section Claims.

Context {L : PyLib}.

Variable w : env.

(** C1 (as amended). For a crypto request whose [alert_enabled] and
    [threshold] both count as true, when the fetcher returns a non-zero
    price that is strictly below the threshold, the handler appends the
    "abaixo do alvo" (below target) line to the price message, and the
    decision is not to notify: [should_alert] keeps its initial [False]. *)
Theorem below_threshold_line_without_notify
        (o : list (string * value)) (p : spec_float) :
  dict_get o "type" = JStr "crypto" ->
  truthy (dict_get o "alert_enabled") = true ->
  truthy (dict_get o "threshold") = true ->
  get_crypto_price w (dict_get o "symbol") = Ok (Some p) ->
  float_is_zero p = false ->
  py_lt p (dict_get o "threshold") = Ok true ->
  alert_decision w (JObj o)
  = Ok (crypto_base (dict_get o "symbol") p
          ++ below_line (dict_get o "threshold"), false).
Proof.
  intros Ht Ha Hthr Hp Hz Hlt.
  rewrite (alert_decision_crypto w o (Some p) Ht Hp).
  rewrite Hz, Ha, Hthr. cbn [negb andb].
  rewrite (py_lt_not_gt _ _ Hlt). cbn [bind].
  now rewrite Hlt.
Qed.

(** What the handler does when its [try] block raises, whatever the
    exception and so also when the payload does not decode: it returns
    normally, no notification has been sent, and [message.ack()] has not
    been called; the trace is the one before the call. *)
Theorem raising_message_swallowed_unacked
        (m : message) (tr : list event) (e : exn) :
  fst (callback_try w m tr) = Raise e ->
  callback w m tr = (Ok tt, tr).
Proof.
  rewrite callback_try_run, callback_run. unfold message_events.
  destruct (message_decision w m) as [d| ]; simpl.
  - discriminate.
  - intros _. now rewrite app_nil_r.
Qed.

(** C3. For a crypto request whose [alert_enabled] and [threshold] count
    as true and whose fetched price equals the threshold, the decision is to
    notify with the price message alone (no ACIMA line, no "abaixo" line).
    For a crypto request whose [threshold] is unset (or zero) or whose
    [alert_enabled] counts as false, the decision is to notify whatever was
    fetched, with the price message alone when a price was obtained. *)
Theorem equal_or_unconfigured_always_notifies
        (o : list (string * value)) (price : option spec_float) :
  dict_get o "type" = JStr "crypto" ->
  get_crypto_price w (dict_get o "symbol") = Ok price ->
  (forall p,
      price = Some p ->
      truthy (dict_get o "alert_enabled") = true ->
      truthy (dict_get o "threshold") = true ->
      py_eq p (dict_get o "threshold") = true ->
      alert_decision w (JObj o)
      = Ok (crypto_base (dict_get o "symbol") p, true))
  /\ (truthy (dict_get o "threshold") = false
      \/ truthy (dict_get o "alert_enabled") = false ->
      alert_decision w (JObj o)
      = Ok (status_report (dict_get o "symbol") price, true)
      /\ forall p,
          price = Some p -> float_is_zero p = false ->
          status_report (dict_get o "symbol") price
          = crypto_base (dict_get o "symbol") p).
Proof.
  intros Ht Hp. rewrite (alert_decision_crypto w o price Ht Hp). split.
  - intros p -> Ha Hthr He.
    destruct (float_is_zero p) eqn:Hz.
    + rewrite (py_eq_zero_falsy _ _ Hz He) in Hthr. discriminate Hthr.
    + rewrite Ha, Hthr. cbn [negb andb].
      rewrite (py_eq_not_gt _ _ He). cbn [bind].
      now rewrite (py_eq_not_lt _ _ He).
  - intros Hoff. split.
    + assert (Hc : truthy (dict_get o "alert_enabled")
                   && truthy (dict_get o "threshold") = false).
      { destruct Hoff as [H|H]; rewrite H;
          [apply andb_false_r | reflexivity]. }
      rewrite Hc. unfold status_report.
      destruct price as [p| ]; [ | reflexivity].
      now destruct (float_is_zero p).
    + intros p -> Hz. unfold status_report. now rewrite Hz.
Qed.

(** C4. When the fetcher of a crypto or a weather request returns the
    no-result value, the decision is to notify, and the text is the
    "Não foi possível obter" (could not retrieve) message for the symbol
    or the location. *)
Theorem unavailable_notifies_failure (o : list (string * value)) :
  (dict_get o "type" = JStr "crypto" ->
   get_crypto_price w (dict_get o "symbol") = Ok None ->
   alert_decision w (JObj o)
   = Ok ("⚠️ Não foi possível obter o preço para "
           ++ py_str (dict_get o "symbol") ++ ".", true))
  /\ (dict_get o "type" = JStr "weather" ->
      get_weather w (dict_get o "location") = Ok None ->
      alert_decision w (JObj o)
      = Ok ("⚠️ Não foi possível obter o tempo para "
              ++ py_str (dict_get o "location") ++ ".", true)).
Proof.
  split; intros Ht Hf.
  - now rewrite (alert_decision_crypto w o None Ht Hf).
  - now rewrite (alert_decision_weather w o None Ht Hf).
Qed.

(** C5. Each fetcher returns a result or the no-result value and never
    raises. When the request raises (timeout, transport error), when the
    status is not a success status, or when the body is malformed (it does
    not parse, or it holds no price [float] accepts, or no forecast), what
    it returns is the no-result value; so does the price fetcher for a
    symbol that is not a [str]. In every case the result is the one read
    from the body of a status-200 answer, and no result otherwise. *)
Theorem fetchers_collapse_failures (symbol location : value) :
  (get_crypto_price w symbol = Ok None
   \/ exists f, get_crypto_price w symbol = Ok (Some f))
  /\ (get_weather w location = Ok None
      \/ exists wd, get_weather w location = Ok (Some wd))
  /\ (forall s,
         symbol = JStr s ->
         provider_failed price_of
           (requests_get w (crypto_url (str_upper s))) = true ->
         get_crypto_price w symbol = Ok None)
  /\ (provider_failed forecast_of
        (requests_get w (weather_url location)) = true ->
      get_weather w location = Ok None)
  /\ ((forall s, symbol <> JStr s) -> get_crypto_price w symbol = Ok None)
  /\ (forall s,
         symbol = JStr s ->
         get_crypto_price w symbol
         = Ok (answer_of price_of
                 (requests_get w (crypto_url (str_upper s)))))
  /\ get_weather w location
     = Ok (answer_of forecast_of (requests_get w (weather_url location))).
Proof.
  repeat split.
  - destruct (get_crypto_price_total w symbol) as [[f| ] H]; eauto.
  - destruct (get_weather_total w location) as [[wd| ] H]; eauto.
  - intros s -> H. now apply get_crypto_price_failed.
  - apply get_weather_failed.
  - apply get_crypto_price_not_str.
  - intros s ->. apply get_crypto_price_answer.
  - apply get_weather_answer.
Qed.

(** C6. A payload that decodes to an object whose [type] is absent, or is
    neither ["crypto"] nor ["weather"], is acknowledged and no notification
    call is made: the handler adds the acknowledgement to the trace and
    nothing else. *)
Theorem unknown_type_acked_silently
        (m : message) (s : string) (o : list (string * value))
        (tr : list event) :
  bytes_decode (data m) = Ok s ->
  json_loads s = Ok (JObj o) ->
  str_eq (dict_get o "type") "crypto" = false ->
  str_eq (dict_get o "type") "weather" = false ->
  callback w m tr = (Ok tt, (tr ++ [Ack m])%list).
Proof.
  intros Hb Hj Hc Hw. rewrite callback_run. unfold message_events.
  rewrite (message_decision_dict w m s o Hb Hj).
  unfold alert_decision. simpl. now rewrite Hc, Hw.
Qed.

(** C7. Handling the same payload at two moments of the process gives
    the same alert decision (text and notify flag) and the same calls, as
    long as the requests are answered the same and [DISCORD_URL] is the
    same: whatever the globals hold at either moment once [main] has bound
    [monitor] (so whatever [redis_client] is), whatever happened before
    (the traces), and whatever else in the world differs. The handler
    leaves the globals as it found them, so a redelivery right after the
    first handling finds the same state and does the same again. *)
Theorem redelivery_same_decision
        (g g' : globals) (svc svc' : MonitorService) (w' : env)
        (m : message) (tr tr' : list event) :
  monitor g = Some svc ->
  monitor g' = Some svc' ->
  (forall url, requests_get w url = requests_get w' url) ->
  environ_get w "DISCORD_URL" = environ_get w' "DISCORD_URL" ->
  message_decision_in g w m = message_decision_in g' w' m
  /\ exists evs,
      callback_in g w m tr = (Ok tt, (tr ++ evs)%list, g)
      /\ callback_in g' w' m tr' = (Ok tt, (tr' ++ evs)%list, g')
      /\ callback_in g w' m (tr ++ evs)
         = (Ok tt, ((tr ++ evs) ++ evs)%list, g).
Proof.
  intros Hg Hg' Hget Henv.
  destruct (message_events_same_world w w' m Hget Henv) as [Hd He].
  split.
  - rewrite (message_decision_in_bound g svc w m Hg).
    now rewrite (message_decision_in_bound g' svc' w' m Hg').
  - exists (message_events w m).
    rewrite (callback_in_bound g svc w m tr Hg).
    rewrite (callback_in_bound g' svc' w' m tr' Hg').
    rewrite (callback_in_bound g svc w' m _ Hg).
    rewrite !callback_run, <- He. auto.
Qed.

(** C8. When the provider returns a price of zero, the handler takes the
    branch of a missing price: the decision is to notify with the
    could-not-retrieve text, as for any world where no price is returned. *)
Theorem zero_price_reported_as_failure
        (o : list (string * value)) (p : spec_float) :
  dict_get o "type" = JStr "crypto" ->
  get_crypto_price w (dict_get o "symbol") = Ok (Some p) ->
  float_is_zero p = true ->
  alert_decision w (JObj o) = Ok (crypto_failure (dict_get o "symbol"), true)
  /\ forall w',
      get_crypto_price w' (dict_get o "symbol") = Ok None ->
      alert_decision w (JObj o) = alert_decision w' (JObj o).
Proof.
  intros Ht Hp Hz.
  rewrite (alert_decision_crypto w o (Some p) Ht Hp), Hz. split.
  - reflexivity.
  - intros w' Hn. now rewrite (alert_decision_crypto w' o None Ht Hn).
Qed.

(** C9. With [alert_enabled] true and a [threshold] that is the number 0
    (the [int] 0 or a [float] zero), no comparison is made: for a fetched
    non-zero price the decision is to notify with the price message alone. *)
Theorem zero_threshold_skips_comparison
        (o : list (string * value)) (p : spec_float) :
  dict_get o "type" = JStr "crypto" ->
  (dict_get o "threshold" = JInt 0
   \/ exists s, dict_get o "threshold" = JFloat (S754_zero s)) ->
  get_crypto_price w (dict_get o "symbol") = Ok (Some p) ->
  float_is_zero p = false ->
  alert_decision w (JObj o) = Ok (crypto_base (dict_get o "symbol") p, true).
Proof.
  intros Ht Hthr Hp Hz.
  rewrite (alert_decision_crypto w o (Some p) Ht Hp), Hz. cbn [negb].
  assert (Hf : truthy (dict_get o "threshold") = false).
  { destruct Hthr as [H|[s H]]; now rewrite H. }
  now rewrite Hf, andb_false_r.
Qed.

(** C10. A crypto request without [symbol] does not crash the handler:
    [get_crypto_price(None)] returns the no-price value, the decision is to
    notify with the failure text that names the symbol [None], the handler
    returns normally, the webhook configured in [DISCORD_URL] is called
    with that text, and the message is acknowledged. *)
Theorem missing_symbol_failure_notified
        (m : message) (s : string) (o : list (string * value))
        (tr : list event) :
  bytes_decode (data m) = Ok s ->
  json_loads s = Ok (JObj o) ->
  dict_get o "type" = JStr "crypto" ->
  assoc "symbol" o = None ->
  let content := "⚠️ Não foi possível obter o preço para None." in
  get_crypto_price w JNull = Ok None
  /\ alert_decision w (JObj o) = Ok (content, true)
  /\ callback w m tr = (Ok tt, (tr ++ notification w content ++ [Ack m])%list)
  /\ forall u,
      environ_get w "DISCORD_URL" = Some u -> u <> "" ->
      callback w m tr
      = (Ok tt,
         (tr ++ [Post u (JObj [("content", JStr content)]); Ack m])%list).
Proof.
  intros Hb Hj Ht Hs content.
  assert (Hsym : dict_get o "symbol" = JNull).
  { unfold dict_get. now rewrite Hs. }
  assert (Hd : alert_decision w (JObj o) = Ok (content, true)).
  { rewrite (alert_decision_crypto w o None Ht); rewrite Hsym; reflexivity. }
  assert (Hc : callback w m tr
               = (Ok tt, (tr ++ notification w content ++ [Ack m])%list)).
  { rewrite callback_run. unfold message_events.
    now rewrite (message_decision_dict w m s o Hb Hj), Hd. }
  repeat split; try assumption.
  intros u Hu Hne. rewrite Hc. unfold notification. rewrite Hu.
  apply String.eqb_neq in Hne. now rewrite Hne.
Qed.

End Claims.

(** ** Concrete runs of the claims *)

(** C1, as stated, fails: with [threshold] 50000, [alert_enabled] true and
    a fetched price of 40000.0, the below-target line is appended but the
    decision is [should_alert = False], and nothing is posted. *)
Lemma below_threshold_notify_counterexample :
  dict_get Sample.crypto_request "alert_enabled" = JBool true
  /\ dict_get Sample.crypto_request "threshold" = JInt 50000
  /\ get_crypto_price (L := Sample.lib) (Sample.world "40000.00000000" true)
       (dict_get Sample.crypto_request "symbol")
     = Ok (Some Sample.f40000)
  /\ py_lt Sample.f40000 (JInt 50000) = Ok true
  /\ alert_decision (L := Sample.lib) (Sample.world "40000.00000000" true)
       (JObj Sample.crypto_request)
     = Ok ("💰 **Monitor Crypto**: O preço de **btc** é de **$40,000.00**."
             ++ newline ++ "📉 O preço está abaixo do alvo de $50000.", false)
  /\ callback (L := Sample.lib) (Sample.world "40000.00000000" true)
       {| data := Sample.crypto_payload |} []
     = (Ok tt, [Ack {| data := Sample.crypto_payload |}])
  /\ ~ (exists text,
           alert_decision (L := Sample.lib)
             (Sample.world "40000.00000000" true) (JObj Sample.crypto_request)
           = Ok (text, true)).
Proof.
  repeat split; try reflexivity.
  intros [text H]. vm_compute in H. discriminate H.
Qed.

Lemma below_threshold_line_without_notify_witness :
  alert_decision (L := Sample.lib) (Sample.world "40000.00000000" true)
    (JObj Sample.crypto_request)
  = Ok (crypto_base (L := Sample.lib) (JStr "btc") Sample.f40000
          ++ below_line (L := Sample.lib) (JInt 50000), false).
Proof.
  exact (below_threshold_line_without_notify (L := Sample.lib)
           (Sample.world "40000.00000000" true) Sample.crypto_request
           Sample.f40000 eq_refl eq_refl eq_refl eq_refl eq_refl eq_refl).
Defined.

(** C2. The handler at the payload [b'not json']: the [try] block raises
    [JSONDecodeError], the handler returns normally and posts nothing, as
    the claim says, but [message.ack()] is not called, where the claim and
    the comments of lines 110 and 115 have the message acknowledged so that
    it does not come back. *)
Lemma undecodable_payload_not_acked :
  fst (callback_try (L := Sample.lib) (Sample.world "40000.00000000" true)
         {| data := Sample.garbage_payload |} [])
  = Raise JSONDecodeError
  /\ callback (L := Sample.lib) (Sample.world "40000.00000000" true)
       {| data := Sample.garbage_payload |} []
     = (Ok tt, [])
  /\ ~ In (Ack {| data := Sample.garbage_payload |})
         (snd (callback (L := Sample.lib)
                 (Sample.world "40000.00000000" true)
                 {| data := Sample.garbage_payload |} [])).
Proof.
  repeat split; try reflexivity.
  intros H. vm_compute in H. exact H.
Qed.

Lemma raising_message_swallowed_unacked_witness :
  callback (L := Sample.lib) (Sample.world "40000.00000000" true)
    {| data := Sample.garbage_payload |} []
  = (Ok tt, []).
Proof.
  exact (raising_message_swallowed_unacked (L := Sample.lib)
           (Sample.world "40000.00000000" true)
           {| data := Sample.garbage_payload |} [] JSONDecodeError eq_refl).
Defined.

Lemma equal_or_unconfigured_always_notifies_witness :
  alert_decision (L := Sample.lib) (Sample.world "50000.00000000" true)
    (JObj Sample.crypto_request)
  = Ok (crypto_base (L := Sample.lib) (JStr "btc") Sample.f50000, true)
  /\ alert_decision (L := Sample.lib) (Sample.world "40000.00000000" true)
       (JObj Sample.plain_request)
     = Ok (crypto_base (L := Sample.lib) (JStr "btc") Sample.f40000, true).
Proof.
  split.
  - exact (proj1 (equal_or_unconfigured_always_notifies (L := Sample.lib)
                    (Sample.world "50000.00000000" true) Sample.crypto_request
                    (Some Sample.f50000) eq_refl eq_refl)
             Sample.f50000 eq_refl eq_refl eq_refl eq_refl).
  - exact (proj1 (proj2 (equal_or_unconfigured_always_notifies
                           (L := Sample.lib)
                           (Sample.world "40000.00000000" true)
                           Sample.plain_request (Some Sample.f40000)
                           eq_refl eq_refl)
                    (or_introl eq_refl))).
Defined.

Lemma unavailable_notifies_failure_witness :
  alert_decision (L := Sample.lib) (Sample.world "40000.00000000" true)
    (JObj [("type", JStr "crypto"); ("symbol", JStr "eth")])
  = Ok ("⚠️ Não foi possível obter o preço para eth.", true)
  /\ alert_decision (L := Sample.lib) (Sample.world "40000.00000000" true)
       (JObj Sample.weather_request)
     = Ok ("⚠️ Não foi possível obter o tempo para lisbon.", true).
Proof.
  split.
  - exact (proj1 (unavailable_notifies_failure (L := Sample.lib)
                    (Sample.world "40000.00000000" true)
                    [("type", JStr "crypto"); ("symbol", JStr "eth")])
             eq_refl eq_refl).
  - exact (proj2 (unavailable_notifies_failure (L := Sample.lib)
                    (Sample.world "40000.00000000" true)
                    Sample.weather_request)
             eq_refl eq_refl).
Defined.

Lemma fetchers_collapse_failures_witness :
  get_crypto_price (L := Sample.lib) (Sample.world "40000.00000000" true)
    (JStr "eth")
  = Ok None
  /\ get_weather (L := Sample.lib) (Sample.world "40000.00000000" true)
       (JStr "lisbon")
     = Ok None
  /\ get_crypto_price (L := Sample.lib)
       (Sample.answering (Ok Sample.empty_answer)) (JStr "btc")
     = Ok None
  /\ get_weather (L := Sample.lib)
       (Sample.answering (Ok Sample.empty_answer)) (JStr "lisbon")
     = Ok None
  /\ get_crypto_price (L := Sample.lib)
       (Sample.world "40000.00000000" true) (JInt 7)
     = Ok None.
Proof.
  split; [ | split; [ | split; [ | split]]].
  - exact (proj1 (proj2 (proj2 (fetchers_collapse_failures (L := Sample.lib)
                                  (Sample.world "40000.00000000" true)
                                  (JStr "eth") (JStr "lisbon"))))
             "eth" eq_refl eq_refl).
  - exact (proj1 (proj2 (proj2 (proj2
             (fetchers_collapse_failures (L := Sample.lib)
                (Sample.world "40000.00000000" true)
                (JStr "eth") (JStr "lisbon")))))
             eq_refl).
  - exact (proj1 (proj2 (proj2 (fetchers_collapse_failures (L := Sample.lib)
                                  (Sample.answering (Ok Sample.empty_answer))
                                  (JStr "btc") (JStr "lisbon"))))
             "btc" eq_refl eq_refl).
  - exact (proj1 (proj2 (proj2 (proj2
             (fetchers_collapse_failures (L := Sample.lib)
                (Sample.answering (Ok Sample.empty_answer))
                (JStr "btc") (JStr "lisbon")))))
             eq_refl).
  - apply (proj1 (proj2 (proj2 (proj2 (proj2
             (fetchers_collapse_failures (L := Sample.lib)
                (Sample.world "40000.00000000" true)
                (JInt 7) (JStr "lisbon"))))))).
    intros s H. discriminate H.
Defined.

Lemma unknown_type_acked_silently_witness :
  callback (L := Sample.lib) (Sample.world "40000.00000000" true)
    {| data := Sample.unknown_payload |} []
  = (Ok tt, [Ack {| data := Sample.unknown_payload |}]).
Proof.
  exact (unknown_type_acked_silently (L := Sample.lib)
           (Sample.world "40000.00000000" true)
           {| data := Sample.unknown_payload |} Sample.unknown_payload
           Sample.unknown_request [] eq_refl eq_refl eq_refl eq_refl).
Defined.

Lemma redelivery_same_decision_witness :
  message_decision_in (L := Sample.lib) Sample.bare
    (Sample.world "52000.00000000" true) {| data := Sample.crypto_payload |}
  = message_decision_in (L := Sample.lib) Sample.cached
      (Sample.unreachable "52000.00000000" true)
      {| data := Sample.crypto_payload |}
  /\ exists evs,
      callback_in (L := Sample.lib) Sample.bare
        (Sample.world "52000.00000000" true)
        {| data := Sample.crypto_payload |} []
      = (Ok tt, ([] ++ evs)%list, Sample.bare)
      /\ callback_in (L := Sample.lib) Sample.cached
           (Sample.unreachable "52000.00000000" true)
           {| data := Sample.crypto_payload |}
           [Ack {| data := Sample.unknown_payload |}]
         = (Ok tt, ([Ack {| data := Sample.unknown_payload |}] ++ evs)%list,
            Sample.cached)
      /\ callback_in (L := Sample.lib) Sample.bare
           (Sample.unreachable "52000.00000000" true)
           {| data := Sample.crypto_payload |} ([] ++ evs)
         = (Ok tt, (([] ++ evs) ++ evs)%list, Sample.bare).
Proof.
  exact (redelivery_same_decision (L := Sample.lib)
           (Sample.world "52000.00000000" true) Sample.bare Sample.cached
           MonitorService_new MonitorService_new
           (Sample.unreachable "52000.00000000" true)
           {| data := Sample.crypto_payload |} []
           [Ack {| data := Sample.unknown_payload |}]
           eq_refl eq_refl (fun _ => eq_refl) eq_refl).
Defined.

Lemma zero_price_reported_as_failure_witness :
  alert_decision (L := Sample.lib) (Sample.world "0.00000000" true)
    (JObj Sample.crypto_request)
  = Ok ("⚠️ Não foi possível obter o preço para btc.", true).
Proof.
  exact (proj1 (zero_price_reported_as_failure (L := Sample.lib)
                  (Sample.world "0.00000000" true) Sample.crypto_request
                  (S754_zero false) eq_refl eq_refl eq_refl)).
Defined.

Lemma zero_threshold_skips_comparison_witness :
  alert_decision (L := Sample.lib) (Sample.world "40000.00000000" true)
    (JObj Sample.zero_threshold_request)
  = Ok ("💰 **Monitor Crypto**: O preço de **btc** é de **$40,000.00**.", true).
Proof.
  exact (zero_threshold_skips_comparison (L := Sample.lib)
           (Sample.world "40000.00000000" true) Sample.zero_threshold_request
           Sample.f40000 eq_refl (or_introl eq_refl) eq_refl eq_refl).
Defined.

Lemma missing_symbol_failure_notified_witness :
  callback (L := Sample.lib) (Sample.world "40000.00000000" true)
    {| data := Sample.no_symbol_payload |} []
  = (Ok tt,
     [Post Sample.webhook
        (JObj [("content",
                JStr "⚠️ Não foi possível obter o preço para None.")]);
      Ack {| data := Sample.no_symbol_payload |}]).
Proof.
  exact (proj2 (proj2 (proj2
           (missing_symbol_failure_notified (L := Sample.lib)
              (Sample.world "40000.00000000" true)
              {| data := Sample.no_symbol_payload |} Sample.no_symbol_payload
              Sample.no_symbol_request [] eq_refl eq_refl eq_refl eq_refl)))
           Sample.webhook eq_refl
           (fun H => match H in _ = s return
                       match s with EmptyString => False | _ => True end
                     with eq_refl => I end)).
Defined.

(** ** More on the fetchers *)

Section FetcherFacts.

Context {L : PyLib}.

Variable w : env.

(** X1. [get_weather] never raises. It returns a snapshot exactly when
    the request is answered with status 200, the body parses, and
    [data['current_condition'][0]] has [temp_C], [humidity] and
    [weatherDesc][0]['value']]; the snapshot holds those three values. In
    every other case it returns [None]. *)
Theorem get_weather_some (location : value) :
  (get_weather w location = Ok None
   \/ exists wd, get_weather w location = Ok (Some wd))
  /\ (forall wd,
        get_weather w location = Ok (Some wd) <->
        (exists resp body cc current wdesc wd0,
            requests_get w (weather_url location) = Ok resp
            /\ status_code resp = 200
            /\ json resp = Ok body
            /\ getitem body "current_condition" = Ok cc
            /\ getitem0 cc = Ok current
            /\ getitem current "temp_C" = Ok (temp_C wd)
            /\ getitem current "weatherDesc" = Ok wdesc
            /\ getitem0 wdesc = Ok wd0
            /\ getitem wd0 "value" = Ok (desc wd)
            /\ getitem current "humidity" = Ok (humidity wd)))
  /\ ((forall wd,
         ~ (exists resp body cc current wdesc wd0,
               requests_get w (weather_url location) = Ok resp
               /\ status_code resp = 200
               /\ json resp = Ok body
               /\ getitem body "current_condition" = Ok cc
               /\ getitem0 cc = Ok current
               /\ getitem current "temp_C" = Ok (temp_C wd)
               /\ getitem current "weatherDesc" = Ok wdesc
               /\ getitem0 wdesc = Ok wd0
               /\ getitem wd0 "value" = Ok (desc wd)
               /\ getitem current "humidity" = Ok (humidity wd))) ->
      get_weather w location = Ok None).
Proof.
  assert (Hiff : forall wd,
             get_weather w location = Ok (Some wd) <->
             (exists resp body cc current wdesc wd0,
            requests_get w (weather_url location) = Ok resp
            /\ status_code resp = 200
            /\ json resp = Ok body
            /\ getitem body "current_condition" = Ok cc
            /\ getitem0 cc = Ok current
            /\ getitem current "temp_C" = Ok (temp_C wd)
            /\ getitem current "weatherDesc" = Ok wdesc
            /\ getitem0 wdesc = Ok wd0
            /\ getitem wd0 "value" = Ok (desc wd)
            /\ getitem current "humidity" = Ok (humidity wd))).
  { intros wd. split.
    + unfold get_weather. cbn zeta.
      destruct (requests_get w (weather_url location)) as [resp| ] eqn:Hr;
        simpl; try discriminate.
      destruct (status_code resp =? 200) eqn:Hs; simpl; try discriminate.
      destruct (json resp) as [body| ] eqn:Hj; simpl; try discriminate.
      destruct (getitem body "current_condition") as [cc| ] eqn:H1; simpl;
        try discriminate.
      destruct (getitem0 cc) as [current| ] eqn:H2; simpl; try discriminate.
      destruct (getitem current "temp_C") as [t| ] eqn:H3; simpl;
        try discriminate.
      destruct (getitem current "weatherDesc") as [wdesc| ] eqn:H4; simpl;
        try discriminate.
      destruct (getitem0 wdesc) as [wd0| ] eqn:H5; simpl; try discriminate.
      destruct (getitem wd0 "value") as [d| ] eqn:H6; simpl; try discriminate.
      destruct (getitem current "humidity") as [hu| ] eqn:H7; simpl;
        try discriminate.
      intros E. injection E as E. subst wd. simpl.
      exists resp, body, cc, current, wdesc, wd0.
      apply Z.eqb_eq in Hs. auto 15.
    + intros (resp & body & cc & current & wdesc & wd0
              & Hr & Hs & Hj & H1 & H2 & H3 & H4 & H5 & H6 & H7).
      unfold get_weather. cbn zeta. rewrite Hr. simpl. rewrite Hs. simpl.
      rewrite Hj. simpl. rewrite H1. simpl. rewrite H2. simpl.
      rewrite H3. simpl. rewrite H4. simpl. rewrite H5. simpl.
      rewrite H6. simpl. rewrite H7. simpl. now destruct wd. }
  split; [ | split; [exact Hiff | ]].
  - destruct (get_weather_total w location) as [[wd| ] H]; eauto.
  - intros Hno.
    destruct (get_weather_total w location) as [[wd| ] H]; [ | exact H].
    destruct (Hno wd). now apply Hiff.
Qed.

(** X3. Only status 200 counts as an answer: a response with any other
    status, 201 to 299 included, gives the no-result value in both fetchers,
    whatever its body. *)
Theorem only_status_200_is_read (resp : response) :
  status_code resp <> 200 ->
  (forall s,
      requests_get w (crypto_url (str_upper s)) = Ok resp ->
      get_crypto_price w (JStr s) = Ok None)
  /\ (forall location,
         requests_get w (weather_url location) = Ok resp ->
         get_weather w location = Ok None).
Proof.
  intros Hs. apply Z.eqb_neq in Hs. split.
  - intros s Hr. unfold get_crypto_price. simpl. rewrite Hr. simpl.
    now rewrite Hs.
  - intros location Hr. unfold get_weather. cbn zeta. rewrite Hr. simpl.
    now rewrite Hs.
Qed.

(** X4. The price fetcher reads its symbol through [upper()] only: two
    symbols with the same upper-case form are quoted the same. *)
Theorem get_crypto_price_case_insensitive (s1 s2 : string) :
  str_upper s1 = str_upper s2 ->
  get_crypto_price w (JStr s1) = get_crypto_price w (JStr s2).
Proof. intros H. unfold get_crypto_price. simpl. now rewrite H. Qed.

End FetcherFacts.

(** ** More on the handler *)

Section HandlerFacts.

Context {L : PyLib}.

Variable w : env.

Lemma str_eq_true (v : value) (s : string) :
  str_eq v s = true -> v = JStr s.
Proof.
  destruct v; simpl; try discriminate.
  intros H. apply String.eqb_eq in H. now subst.
Qed.

Lemma py_compare_number (p : spec_float) (v : value) :
  is_number v = true -> exists c, py_compare p v = Ok c.
Proof. destruct v; simpl; try discriminate; eauto. Qed.

Lemma py_compare_not_number (p : spec_float) (v : value) :
  is_number v = false -> py_compare p v = Raise TypeError.
Proof. destruct v; simpl; try discriminate; reflexivity. Qed.

Lemma py_compare_nan (v : value) :
  is_number v = true -> py_compare S754_nan v = Ok None.
Proof. destruct v; simpl; try discriminate; reflexivity. Qed.

(** X5. For a crypto request whose [alert_enabled] and [threshold] count
    as true, a fetched non-zero price strictly above the threshold gives
    the price message followed by the ACIMA line, and the decision to
    notify. *)
Theorem above_threshold_alerts (o : list (string * value)) (p : spec_float) :
  dict_get o "type" = JStr "crypto" ->
  truthy (dict_get o "alert_enabled") = true ->
  truthy (dict_get o "threshold") = true ->
  get_crypto_price w (dict_get o "symbol") = Ok (Some p) ->
  float_is_zero p = false ->
  py_gt p (dict_get o "threshold") = Ok true ->
  alert_decision w (JObj o)
  = Ok (crypto_base (dict_get o "symbol") p
          ++ above_line (dict_get o "threshold"), true).
Proof.
  intros Ht Ha Hthr Hp Hz Hgt.
  rewrite (alert_decision_crypto w o (Some p) Ht Hp).
  rewrite Hz, Ha, Hthr. cbn [negb andb]. now rewrite Hgt.
Qed.

(** X6. The decision is not to notify in two cases only: the type is
    neither ["crypto"] nor ["weather"] (and the text is empty), or an
    enabled alert finds a non-zero price strictly below its threshold (and
    the text ends with the below-target line). *)
Theorem silent_decisions (o : list (string * value)) (text : string) :
  alert_decision w (JObj o) = Ok (text, false) <->
  (str_eq (dict_get o "type") "crypto" = false
   /\ str_eq (dict_get o "type") "weather" = false
   /\ text = "")
  \/ (dict_get o "type" = JStr "crypto"
      /\ truthy (dict_get o "alert_enabled") = true
      /\ truthy (dict_get o "threshold") = true
      /\ exists p,
          get_crypto_price w (dict_get o "symbol") = Ok (Some p)
          /\ float_is_zero p = false
          /\ py_lt p (dict_get o "threshold") = Ok true
          /\ text = crypto_base (dict_get o "symbol") p
                      ++ below_line (dict_get o "threshold")).
Proof.
  split.
  - destruct (str_eq (dict_get o "type") "crypto") eqn:Hc.
    + apply str_eq_true in Hc.
      destruct (get_crypto_price_total w (dict_get o "symbol")) as [r Hr].
      rewrite (alert_decision_crypto w o r Hc Hr).
      destruct r as [p| ]; [ | discriminate].
      destruct (float_is_zero p) eqn:Hz; cbn [negb]; [discriminate | ].
      destruct (truthy (dict_get o "alert_enabled")) eqn:Ha; cbn [andb];
        [ | discriminate].
      destruct (truthy (dict_get o "threshold")) eqn:Hthr; [ | discriminate].
      destruct (py_gt p (dict_get o "threshold")) as [[ | ]| ] eqn:Hgt;
        cbn [bind]; try discriminate.
      destruct (py_lt p (dict_get o "threshold")) as [[ | ]| ] eqn:Hlt;
        cbn [bind]; try discriminate.
      intros E. injection E as E. right. repeat split; trivial.
      exists p. auto.
    + destruct (str_eq (dict_get o "type") "weather") eqn:Hw.
      * apply str_eq_true in Hw.
        destruct (get_weather_total w (dict_get o "location")) as [r Hr].
        rewrite (alert_decision_weather w o r Hw Hr).
        destruct r; discriminate.
      * unfold alert_decision. simpl. rewrite Hc, Hw.
        intros E. injection E as E. left. auto.
  - intros [(Hc & Hw & ->)|(Ht & Ha & Hthr & p & Hp & Hz & Hlt & ->)].
    + unfold alert_decision. simpl. now rewrite Hc, Hw.
    + rewrite (alert_decision_crypto w o (Some p) Ht Hp).
      rewrite Hz, Ha, Hthr. cbn [negb andb].
      rewrite (py_lt_not_gt _ _ Hlt). cbn [bind]. now rewrite Hlt.
Qed.

(** X7. A price that is not a number (NaN) is neither above nor below a
    numeric threshold: with the alert enabled, the decision is to notify
    with the price message alone. *)
Theorem nan_price_notifies_plain (o : list (string * value)) :
  dict_get o "type" = JStr "crypto" ->
  is_number (dict_get o "threshold") = true ->
  get_crypto_price w (dict_get o "symbol") = Ok (Some S754_nan) ->
  alert_decision w (JObj o)
  = Ok (crypto_base (dict_get o "symbol") S754_nan, true).
Proof.
  intros Ht Hn Hp.
  rewrite (alert_decision_crypto w o (Some S754_nan) Ht Hp). cbn [negb float_is_zero].
  unfold py_gt, py_lt. rewrite (py_compare_nan _ Hn). cbn [bind is_cmp].
  now destruct (truthy (dict_get o "alert_enabled")
                && truthy (dict_get o "threshold")).
Qed.

(** X8. A threshold that counts as true and is not a number (a non-empty
    string, list or object) makes the comparison of line 79 raise
    [TypeError] once a non-zero price is fetched and the alert is enabled:
    the handler swallows it, posts nothing and leaves the message
    unacknowledged. *)
Theorem non_numeric_threshold_dropped
        (m : message) (s : string) (o : list (string * value))
        (p : spec_float) (tr : list event) :
  bytes_decode (data m) = Ok s ->
  json_loads s = Ok (JObj o) ->
  dict_get o "type" = JStr "crypto" ->
  truthy (dict_get o "alert_enabled") = true ->
  truthy (dict_get o "threshold") = true ->
  is_number (dict_get o "threshold") = false ->
  get_crypto_price w (dict_get o "symbol") = Ok (Some p) ->
  float_is_zero p = false ->
  callback_try w m tr = (Raise TypeError, tr)
  /\ callback w m tr = (Ok tt, tr).
Proof.
  intros Hb Hj Ht Ha Hthr Hn Hp Hz.
  assert (Hd : message_decision w m = Raise TypeError).
  { rewrite (message_decision_dict w m s o Hb Hj).
    rewrite (alert_decision_crypto w o (Some p) Ht Hp).
    rewrite Hz, Ha, Hthr. cbn [negb andb]. unfold py_gt.
    now rewrite (py_compare_not_number p _ Hn). }
  split.
  - now rewrite callback_try_run, Hd.
  - rewrite callback_run. unfold message_events. rewrite Hd.
    now rewrite app_nil_r.
Qed.

(** X9. A payload that is JSON but not an object (a list, a string, a
    number, [null]) has no [get]: line 61 raises [AttributeError], the
    handler swallows it, posts nothing and leaves the message
    unacknowledged. *)
Theorem non_object_payload_dropped
        (m : message) (s : string) (v : value) (tr : list event) :
  bytes_decode (data m) = Ok s ->
  json_loads s = Ok v ->
  (forall o, v <> JObj o) ->
  callback_try w m tr = (Raise AttributeError, tr)
  /\ callback w m tr = (Ok tt, tr).
Proof.
  intros Hb Hj Hv.
  assert (Hd : message_decision w m = Raise AttributeError).
  { unfold message_decision. rewrite Hb. simpl. rewrite Hj. simpl.
    destruct v; try reflexivity. now destruct (Hv o). }
  split.
  - now rewrite callback_try_run, Hd.
  - rewrite callback_run. unfold message_events. rewrite Hd.
    now rewrite app_nil_r.
Qed.

(** X10. Handling a message adds nothing to the trace, or the
    acknowledgement alone, or one post followed by the acknowledgement;
    the post goes to the non-empty [DISCORD_URL]. So nothing is posted
    without [DISCORD_URL], never twice, and never without the message being
    acknowledged next. *)
Theorem callback_events_shape (m : message) (tr : list event) :
  exists evs,
    callback w m tr = (Ok tt, (tr ++ evs)%list)
    /\ (evs = []
        \/ evs = [Ack m]
        \/ exists u content,
            environ_get w "DISCORD_URL" = Some u
            /\ u <> ""
            /\ evs = [Post u (JObj [("content", JStr content)]); Ack m]).
Proof.
  exists (message_events w m). split; [apply callback_run | ].
  unfold message_events.
  destruct (message_decision w m) as [[text alert]| ]; [ | now left].
  right. unfold decision_events, notification. cbn [fst snd].
  destruct alert; [ | now left].
  destruct (environ_get w "DISCORD_URL") as [u| ]; [ | now left].
  destruct (String.eqb u "") eqn:Hu; cbn [negb]; [now left | ].
  right. exists u, text. apply String.eqb_neq in Hu. auto.
Qed.

(** X11. The message is acknowledged exactly when the [try] block runs to
    its end: an acknowledgement is in the trace of the handler if and only
    if decoding and the decision did not raise. *)
Theorem acked_iff_no_raise (m : message) :
  In (Ack m) (snd (callback w m [])) <->
  exists d, message_decision w m = Ok d.
Proof.
  rewrite callback_run. cbn [snd app]. unfold message_events.
  destruct (message_decision w m) as [d| ].
  - split; [eauto | intros _].
    unfold decision_events. apply in_or_app. right. now left.
  - split; [intros [] | intros [d H]; discriminate H].
Qed.

(** X12. What the webhook answers never changes what the handler does:
    with [requests.post] replaced by any other behaviour (an error status,
    a raised exception), the handler returns the same result and trace. *)
Theorem delivery_outcome_ignored
        (post : string -> value -> res response) (m : message)
        (tr : list event) :
  callback {| requests_get := requests_get w;
              requests_post := post;
              environ_get := environ_get w |} m tr
  = callback w m tr.
Proof. rewrite !callback_run. now destruct w. Qed.

(** X13. The consumer loop never stops on a message: handling a list of
    messages returns normally and adds the events of each message, in
    delivery order, whatever the other messages are. *)
Theorem consume_run (ms : list message) (tr : list event) :
  consume w ms tr = (Ok tt, (tr ++ flat_map (message_events w) ms)%list).
Proof.
  revert tr. induction ms as [ |m ms IH]; intros tr; simpl.
  - unfold ret. now rewrite app_nil_r.
  - unfold bindM. rewrite callback_run, IH. now rewrite <- app_assoc.
Qed.

(** X14. A weather request whose fetch succeeds is answered with the
    report on location, temperature, condition and humidity, and the
    decision to notify. *)
Theorem weather_success_notifies (o : list (string * value)) (wd : weather) :
  dict_get o "type" = JStr "weather" ->
  get_weather w (dict_get o "location") = Ok (Some wd) ->
  alert_decision w (JObj o)
  = Ok ("🌤️ **Monitor Tempo**: Em **" ++ py_str (dict_get o "location")
          ++ "** estão **" ++ py_str (temp_C wd) ++ "°C**." ++ newline
          ++ "Condição: " ++ py_str (desc wd) ++ " (Humidade: "
          ++ py_str (humidity wd) ++ "%)", true).
Proof.
  intros Ht Hw. now rewrite (alert_decision_weather w o (Some wd) Ht Hw).
Qed.

(** X15. A weather request without [location] is not refused: the
    provider is asked for the location named [None], and the decision is
    to notify with the report or the failure text for [None]. *)
Theorem missing_location_queries_none (o : list (string * value)) :
  dict_get o "type" = JStr "weather" ->
  assoc "location" o = None ->
  weather_url (dict_get o "location") = "https://wttr.in/None?format=j1"
  /\ exists r,
      get_weather w JNull = Ok r
      /\ alert_decision w (JObj o)
         = Ok (match r with
               | Some wd => weather_report JNull wd
               | None => "⚠️ Não foi possível obter o tempo para None."
               end, true).
Proof.
  intros Ht Hl.
  assert (Hloc : dict_get o "location" = JNull).
  { unfold dict_get. now rewrite Hl. }
  rewrite Hloc. split; [reflexivity | ].
  destruct (get_weather_total w JNull) as [r Hr]. exists r. split; trivial.
  rewrite (alert_decision_weather w o r Ht); rewrite Hloc; trivial.
  now destruct r.
Qed.

End HandlerFacts.

(** ** Start-up *)

Lemma redis_setup_events (h : host) (port : Z) :
  redis_setup h port
  = match os_environ_get h "REDIS_HOST" with
    | Some rh =>
        if String.eqb rh "" then []
        else [RedisConnect rh port (os_environ_get h "REDIS_AUTH_STRING")]
    | None => []
    end.
Proof.
  unfold redis_setup.
  destruct (os_environ_get h "REDIS_HOST") as [rh| ]; [ | reflexivity].
  destruct (String.eqb rh ""); cbn [negb]; [reflexivity | ].
  now destruct (try_except _ _).
Qed.

Lemma redis_setup_no_subscribe (h : host) (port : Z) (path : string) (n : Z) :
  ~ In (Subscribe path n) (redis_setup h port).
Proof.
  rewrite redis_setup_events.
  destruct (os_environ_get h "REDIS_HOST") as [rh| ]; [ | intros []].
  destruct (String.eqb rh ""); [intros [] | ].
  intros [H|[]]. discriminate H.
Qed.

(** X16. [main] raises in three cases only: [REDIS_PORT] is set to a
    text [int] refuses (line 126 is outside every [try], so this is fatal
    even when [REDIS_HOST] is unset); or, with both identifiers set, the
    Pub/Sub client cannot be made, or the streaming pull fails. A Redis
    failure is never among them. *)
Theorem main_raises_iff (h : host) (pull : pull_end) (e : exn) :
  fst (main h pull) = Raise e <->
  redis_port_setting h = Raise e
  \/ ((exists port, redis_port_setting h = Ok port)
      /\ env_truthy (os_environ_get h "GCP_PROJECT_ID") = true
      /\ env_truthy (os_environ_get h "PUBSUB_SUBSCRIPTION_ID") = true
      /\ (subscriber_client h = Raise e
          \/ (subscriber_client h = Ok tt /\ pull = Failed e))).
Proof.
  unfold main.
  destruct (redis_port_setting h) as [port| e0] eqn:Hport.
  - cbn zeta.
    destruct (os_environ_get h "GCP_PROJECT_ID") as [pid| ] eqn:Hp.
    + destruct (os_environ_get h "PUBSUB_SUBSCRIPTION_ID") as [sid| ] eqn:Hs.
      * destruct (env_truthy (Some pid)) eqn:Tp;
          destruct (env_truthy (Some sid)) eqn:Ts; cbn [negb orb fst];
          try (split; [discriminate | ];
               intros [H|(_ & H1 & H2 & _)]; discriminate).
        destruct (subscriber_client h) as [[]|e1] eqn:Hc.
        -- destruct pull; cbn [fst]; split;
             try discriminate;
             try (intros [H|(_ & _ & _ & [H|(_ & H)])]; discriminate).
           ++ intros E. injection E as ->. right. eauto 10.
           ++ intros [H|(_ & _ & _ & [H|(_ & H)])]; try discriminate.
              now injection H as ->.
        -- cbn [fst]. split.
           ++ intros E. injection E as ->. right. eauto 10.
           ++ intros [H|(_ & _ & _ & [H|(H & _)])]; try discriminate.
              now injection H as ->.
      * cbn [fst env_truthy]. split; [discriminate | ].
        intros [H|(_ & _ & H & _)]; discriminate.
    + cbn [fst env_truthy]. split; [discriminate | ].
      intros [H|(_ & H & _)]; discriminate.
  - cbn [fst]. split.
    + intros E. injection E as ->. now left.
    + intros [H|((port & H) & _)]; [now injection H as -> | discriminate].
Qed.

(** X17. Without a non-empty [GCP_PROJECT_ID] and
    [PUBSUB_SUBSCRIPTION_ID], [main] returns normally and never
    subscribes; all it may have done is the Redis connection attempt. *)
Theorem missing_subscription_config_returns
        (h : host) (pull : pull_end) (port : Z) :
  redis_port_setting h = Ok port ->
  env_truthy (os_environ_get h "GCP_PROJECT_ID") = false
  \/ env_truthy (os_environ_get h "PUBSUB_SUBSCRIPTION_ID") = false ->
  main h pull = (Ok tt, redis_setup h port)
  /\ forall path n, ~ In (Subscribe path n) (snd (main h pull)).
Proof.
  intros Hport Hmiss.
  assert (Hm : main h pull = (Ok tt, redis_setup h port)).
  { unfold main. rewrite Hport. cbn zeta.
    destruct (os_environ_get h "GCP_PROJECT_ID") as [pid| ]; [ | reflexivity].
    destruct (os_environ_get h "PUBSUB_SUBSCRIPTION_ID") as [sid| ];
      [ | reflexivity].
    destruct Hmiss as [H|H]; rewrite H; cbn [negb orb];
      [reflexivity | now rewrite orb_true_r]. }
  split; [exact Hm | ].
  intros path n. rewrite Hm. apply redis_setup_no_subscribe.
Qed.

(** X18. Redis is never in the way: whether the connection succeeds,
    is refused or raises, [main] does the same and returns the same. *)
Theorem redis_outcome_ignored
        (h : host) (pull : pull_end)
        (rc : string -> Z -> option string -> res unit) :
  main {| os_environ_get := os_environ_get h;
          py_int := py_int h;
          redis_connect := rc;
          subscriber_client := subscriber_client h;
          subscription_path := subscription_path h |} pull
  = main h pull.
Proof.
  destruct h as [ge pi rc0 sc sp]. unfold main, redis_port_setting.
  cbn [os_environ_get py_int redis_connect subscriber_client
       subscription_path].
  destruct (match ge "REDIS_PORT" with Some s => pi s | None => Ok 6379 end)
    as [port| ]; [ | reflexivity].
  rewrite !redis_setup_events. reflexivity.
Qed.

(** X19. With both identifiers set and a Pub/Sub client, [main] subscribes
    once, to the path of the two identifiers, with at most one message in
    flight; it returns normally when interrupted from the keyboard, after
    cancelling the pull, and lets any other failure of the pull escape. *)
Theorem configured_main_subscribes
        (h : host) (pull : pull_end) (port : Z) (pid sid : string) :
  redis_port_setting h = Ok port ->
  os_environ_get h "GCP_PROJECT_ID" = Some pid -> pid <> "" ->
  os_environ_get h "PUBSUB_SUBSCRIPTION_ID" = Some sid -> sid <> "" ->
  subscriber_client h = Ok tt ->
  let tr := (redis_setup h port
               ++ [Subscribe (subscription_path h pid sid) 1])%list in
  main h pull
  = match pull with
    | Returned => (Ok tt, tr)
    | KeyboardInterrupt => (Ok tt, (tr ++ [Cancel])%list)
    | Failed e => (Raise e, tr)
    end.
Proof.
  intros Hport Hp Hpne Hs Hsne Hc tr. unfold main.
  rewrite Hport, Hp, Hs, Hc. cbn zeta. unfold env_truthy.
  apply String.eqb_neq in Hpne, Hsne. rewrite Hpne, Hsne. reflexivity.
Qed.

(** X20. Redis is contacted only when [REDIS_HOST] is set and not empty,
    and then once, before anything else, with the port of [REDIS_PORT]
    (6379 when it is unset) and the password of [REDIS_AUTH_STRING]. *)
Theorem redis_contacted_iff_host_set
        (h : host) (pull : pull_end) (rh : string) (port : Z)
        (pw : option string) :
  In (RedisConnect rh port pw) (snd (main h pull)) <->
  os_environ_get h "REDIS_HOST" = Some rh
  /\ rh <> ""
  /\ redis_port_setting h = Ok port
  /\ pw = os_environ_get h "REDIS_AUTH_STRING".
Proof.
  assert (Hsetup : forall q,
             In (RedisConnect rh port pw) (redis_setup h q) <->
             os_environ_get h "REDIS_HOST" = Some rh /\ rh <> ""
             /\ q = port /\ pw = os_environ_get h "REDIS_AUTH_STRING").
  { intros q. rewrite redis_setup_events.
    destruct (os_environ_get h "REDIS_HOST") as [rh'| ].
    - destruct (String.eqb rh' "") eqn:He.
      + apply String.eqb_eq in He. subst rh'. split; [intros [] | ].
        intros (E & Hne & _). injection E as E. now destruct Hne.
      + apply String.eqb_neq in He. split.
        * intros [E|[]]. injection E as -> -> ->. auto.
        * intros (E & _ & -> & ->). injection E as ->. now left.
    - split; [intros [] | intros (E & _); discriminate E]. }
  assert (Hin : forall q (l : list boot_event),
             (forall ev, In ev l -> forall a b c, ev <> RedisConnect a b c) ->
             In (RedisConnect rh port pw) (redis_setup h q ++ l) <->
             In (RedisConnect rh port pw) (redis_setup h q)).
  { intros q l Hl. rewrite in_app_iff. split; [ | auto].
    intros [H|H]; [exact H | ]. now destruct (Hl _ H rh port pw). }
  unfold main.
  destruct (redis_port_setting h) as [q| ] eqn:Hq.
  - assert (Hgoal : In (RedisConnect rh port pw) (redis_setup h q) <->
                    os_environ_get h "REDIS_HOST" = Some rh /\ rh <> ""
                    /\ Ok q = Ok port
                    /\ pw = os_environ_get h "REDIS_AUTH_STRING").
    { rewrite Hsetup. split.
      - intros (A & B & -> & D). auto.
      - intros (A & B & C & D). injection C as ->. auto. }
    cbn zeta.
    destruct (os_environ_get h "GCP_PROJECT_ID") as [pid| ];
      [ | exact Hgoal].
    destruct (os_environ_get h "PUBSUB_SUBSCRIPTION_ID") as [sid| ];
      [ | exact Hgoal].
    destruct (negb (env_truthy (Some pid)) || negb (env_truthy (Some sid)));
      [exact Hgoal | ].
    destruct (subscriber_client h); [ | exact Hgoal].
    destruct pull; cbn [snd]; rewrite <- ?app_assoc, Hin; try exact Hgoal.
    + intros ev [<-|[]]; discriminate.
    + intros ev [<-|[<-|[]]]; discriminate.
    + intros ev [<-|[]]; discriminate.
  - cbn [snd]. split; [intros [] | ].
    intros (_ & _ & E & _). discriminate E.
Qed.

(** ** Concrete runs of the further facts *)

Lemma only_status_200_is_read_witness :
  get_crypto_price (L := Sample.lib)
    (Sample.answering (Ok Sample.forecast_203)) (JStr "btc")
  = Ok None
  /\ get_weather (L := Sample.lib)
       (Sample.answering (Ok Sample.forecast_203)) (JStr "lisbon")
     = Ok None.
Proof.
  pose proof (only_status_200_is_read (L := Sample.lib)
                (Sample.answering (Ok Sample.forecast_203))
                Sample.forecast_203) as H.
  destruct H as [Hc Hw]; [discriminate | ].
  split; [apply Hc | apply Hw]; reflexivity.
Defined.

Lemma get_crypto_price_case_insensitive_witness :
  get_crypto_price (L := Sample.lib) (Sample.world "40000.00000000" true)
    (JStr "btc")
  = get_crypto_price (L := Sample.lib) (Sample.world "40000.00000000" true)
      (JStr "BTC").
Proof.
  exact (get_crypto_price_case_insensitive (L := Sample.lib)
           (Sample.world "40000.00000000" true) "btc" "BTC" eq_refl).
Defined.

Lemma above_threshold_alerts_witness :
  alert_decision (L := Sample.lib) (Sample.world "52000.00000000" true)
    (JObj Sample.crypto_request)
  = Ok (crypto_base (L := Sample.lib) (JStr "btc") Sample.f52000
          ++ above_line (L := Sample.lib) (JInt 50000), true).
Proof.
  exact (above_threshold_alerts (L := Sample.lib)
           (Sample.world "52000.00000000" true) Sample.crypto_request
           Sample.f52000 eq_refl eq_refl eq_refl eq_refl eq_refl eq_refl).
Defined.

Lemma nan_price_notifies_plain_witness :
  alert_decision (L := Sample.lib) (Sample.answering (Ok Sample.nan_ticker))
    (JObj Sample.crypto_request)
  = Ok (crypto_base (L := Sample.lib) (JStr "btc") S754_nan, true).
Proof.
  exact (nan_price_notifies_plain (L := Sample.lib)
           (Sample.answering (Ok Sample.nan_ticker)) Sample.crypto_request
           eq_refl eq_refl eq_refl).
Defined.

Lemma non_numeric_threshold_dropped_witness :
  callback_try (L := Sample.lib) (Sample.world "52000.00000000" true)
    {| data := Sample.text_threshold_payload |} []
  = (Raise TypeError, [])
  /\ callback (L := Sample.lib) (Sample.world "52000.00000000" true)
       {| data := Sample.text_threshold_payload |} []
     = (Ok tt, []).
Proof.
  exact (non_numeric_threshold_dropped (L := Sample.lib)
           (Sample.world "52000.00000000" true)
           {| data := Sample.text_threshold_payload |}
           Sample.text_threshold_payload Sample.text_threshold_request
           Sample.f52000 [] eq_refl eq_refl eq_refl eq_refl eq_refl eq_refl
           eq_refl eq_refl).
Defined.

Lemma non_object_payload_dropped_witness :
  callback_try (L := Sample.lib) Sample.weather_world {| data := "[1, 2]" |} []
  = (Raise AttributeError, [])
  /\ callback (L := Sample.lib) Sample.weather_world {| data := "[1, 2]" |} []
     = (Ok tt, []).
Proof.
  apply (non_object_payload_dropped (L := Sample.lib) Sample.weather_world
           {| data := "[1, 2]" |} "[1, 2]" (JArr [JInt 1; JInt 2]) []);
    [reflexivity | reflexivity | intros o H; discriminate H].
Defined.

Lemma weather_success_notifies_witness :
  alert_decision (L := Sample.lib) Sample.weather_world
    (JObj Sample.weather_request)
  = Ok ("🌤️ **Monitor Tempo**: Em **lisbon** estão **18°C**." ++ newline
          ++ "Condição: Sunny (Humidade: 40%)", true).
Proof.
  exact (weather_success_notifies (L := Sample.lib) Sample.weather_world
           Sample.weather_request
           {| temp_C := JStr "18"; desc := JStr "Sunny";
              humidity := JStr "40" |} eq_refl eq_refl).
Defined.

Lemma missing_location_queries_none_witness :
  weather_url (L := Sample.lib) (dict_get [("type", JStr "weather")] "location")
  = "https://wttr.in/None?format=j1"
  /\ exists r,
      get_weather (L := Sample.lib) Sample.weather_world JNull = Ok r
      /\ alert_decision (L := Sample.lib) Sample.weather_world
           (JObj [("type", JStr "weather")])
         = Ok (match r with
               | Some wd => weather_report (L := Sample.lib) JNull wd
               | None => "⚠️ Não foi possível obter o tempo para None."
               end, true).
Proof.
  exact (missing_location_queries_none (L := Sample.lib) Sample.weather_world
           [("type", JStr "weather")] eq_refl eq_refl).
Defined.

Lemma missing_subscription_config_returns_witness :
  main (Sample.machine None true None) KeyboardInterrupt
  = (Ok tt, [RedisConnect "10.0.0.3" 6379 None]).
Proof.
  exact (proj1 (missing_subscription_config_returns
                  (Sample.machine None true None) KeyboardInterrupt 6379
                  eq_refl (or_introl eq_refl))).
Defined.

Lemma configured_main_subscribes_witness :
  main (Sample.machine (Some "6380") true (Some "my-project"))
    KeyboardInterrupt
  = (Ok tt,
     [RedisConnect "10.0.0.3" 6380 None;
      Subscribe "projects/my-project/subscriptions/monitor-sub" 1;
      Cancel]).
Proof.
  apply (configured_main_subscribes
           (Sample.machine (Some "6380") true (Some "my-project"))
           KeyboardInterrupt 6380 "my-project" "monitor-sub");
    try reflexivity; discriminate.
Defined.
